(** * MediAssist: conversation and search orchestration

    A shallow embedding of [MediAssist.py]: the session store, the search
    client ([search_web]), the result formatter ([format_search_results]),
    the two prompt templates and the per-turn driver ([get_gemini_response]),
    and the script body ([main]) that Streamlit re-runs on every UI event.

    Conventions of the embedding.
    - Python [str] values are Rocq [string]s (read as UTF-8 bytes, which
      agrees with Python on concatenation, emptiness and substring tests;
      the characters of a string are its UTF-8 sequences).
    - The JSON document returned by the search provider is a [json] value;
      a JSON object is a [gmap string json], as a Python [dict] is.
    - The two remote services are oracles collected in a [World]; every
      outbound request is recorded in a trace of [Call]s.
    - Python exceptions are values of [exn]; code that can raise lives in
      [outcome] (pure code) or in [Py] (code that also reads and mutates
      [st.session_state] and talks to the world).  A mutation made before an
      exception is raised stays in the store, as in Python.
    - What the interpreter prints for a float, a list or a dict, and the
      message text of the exceptions it raises itself, are left abstract in
      [PyRuntime]; nothing below depends on them.
    - The secret store is taken to hold both API keys.  The reply object of
      the LLM client is a [Response]: reading its [text] may raise, and
      reading it twice gives the same outcome.  Widget rendering
      ([st.markdown], [st.caption], ...) does not touch the store and is not
      modelled. *)

From Stdlib Require Import Ascii.
From Stdlib Require QArith.
From stdpp Require Import gmap strings list fin_maps pretty.

#[local] Set Warnings "-register-all".

(** ** Values *)

Inductive json :=
  | JNull
  | JBool (b : bool)
  | JInt (z : Z)
  | JFloat (token : string)
  | JStr (s : string)
  | JArr (l : list json)
  | JObj (d : gmap string json).

(** The operations of the interpreter that [format_search_results] applies to
    provider data and that raise on a value of the wrong type: [k in v],
    [v[k]], [v[:5]] and [v.get(k, d)]. *)
Inductive py_op := op_contains | op_getitem | op_slice | op_get.

Inductive exn :=
  | PyError (op : py_op) (v : json)   (* TypeError, AttributeError or KeyError of [op] on [v] *)
  | Raised (msg : string).            (* raised by [requests] or by the LLM client *)

Inductive outcome (A : Type) :=
  | Return (a : A)
  | Raise (e : exn).
Arguments Return {A} a.
Arguments Raise {A} e.

#[global] Instance outcome_ret : MRet outcome := @Return.
#[global] Instance outcome_bind : MBind outcome := λ A B f m,
  match m with
  | Return a => f a
  | Raise e => Raise e
  end.

Class PyRuntime := {
  py_repr : json → string;            (* [str] of a float, a list or a dict *)
  py_exn_text : py_op → json → string (* [str(e)] of an interpreter exception *)
}.

(** The stand-in runtime used to evaluate the model on concrete inputs. *)
Definition sample_runtime : PyRuntime :=
  {| py_repr := λ _, "<repr>"; py_exn_text := λ _ _, "<interpreter error>" |}.

Definition nl : string := String "010"%char "".

(** [sub in s] on two Python strings. *)
Fixpoint str_contains (sub s : string) : bool :=
  String.prefix sub s ||
  match s with
  | EmptyString => false
  | String _ s' => str_contains sub s'
  end.

(** Truth value of a [str]. *)
Definition truthy (s : string) : bool := negb (String.eqb s "").

(** Truth value of [None] or a [str]. *)
Definition truthy_opt (q : option string) : bool :=
  match q with
  | None => false
  | Some s => truthy s
  end.

Definition is_str (k : string) (v : json) : bool :=
  match v with
  | JStr s => String.eqb s k
  | _ => false
  end.

(** [k in v] *)
Definition py_in (k : string) (v : json) : outcome bool :=
  match v with
  | JObj d => Return (bool_decide (is_Some (d !! k)))
  | JArr l => Return (existsb (is_str k) l)
  | JStr s => Return (str_contains k s)
  | _ => Raise (PyError op_contains v)
  end.

(** [v[k]] for a string [k] *)
Definition py_getitem (v : json) (k : string) : outcome json :=
  match v with
  | JObj d =>
      match d !! k with
      | Some x => Return x
      | None => Raise (PyError op_getitem v)
      end
  | _ => Raise (PyError op_getitem v)
  end.

(** A byte of the form [10xxxxxx]: inside a UTF-8 sequence, not at its
    start. *)
Definition is_continuation (c : ascii) : bool :=
  let n := nat_of_ascii c in (128 <=? n) && (n <? 192).

(** The characters of a Python [str]: each leading byte with the
    continuation bytes that follow it. *)
Fixpoint code_points (s : string) : list string :=
  match s with
  | EmptyString => []
  | String c s' =>
      let starts_inside :=
        match s' with String c' _ => is_continuation c' | EmptyString => false end in
      match code_points s' with
      | ch :: chs =>
          if starts_inside then String c ch :: chs else String c EmptyString :: ch :: chs
      | [] => [String c EmptyString]
      end
  end.

(** The items that [for ... in v[:5]] iterates over: the first five elements
    of a list, the first five one-character strings of a string. *)
Definition py_slice5 (v : json) : outcome (list json) :=
  match v with
  | JArr l => Return (take 5 l)
  | JStr s => Return (JStr <$> take 5 (code_points s))
  | _ => Raise (PyError op_slice v)
  end.

(** [v.get(k, dflt)] *)
Definition py_get (v : json) (k : string) (dflt : string) : outcome json :=
  match v with
  | JObj d => Return (default (JStr dflt) (d !! k))
  | _ => Raise (PyError op_get v)
  end.

(** ** Session store, remote services and effects *)

(** An entry of [st.session_state.messages]: [{"role": ..., "content": ...}]. *)
Record Message := { role : string; content : string }.

(** An entry of [st.session_state.chat_history]: [{"role": ..., "parts": [...]}]. *)
Record ModelTurn := { mrole : string; parts : list string }.

(** [st.session_state] once [initialize_session_state] has run. *)
Record Session := {
  messages : list Message;
  chat_history : list ModelTurn;
  search_mode : bool;
  gemini_api_key : string;
  serper_api_key : string
}.

(** [st.secrets] *)
Record Secrets := { GEMINI_API_KEY : string; SERPER_API_KEY : string }.

Definition set_messages (ms : list Message) (s : Session) : Session :=
  {| messages := ms; chat_history := chat_history s; search_mode := search_mode s;
     gemini_api_key := gemini_api_key s; serper_api_key := serper_api_key s |}.

Definition set_chat_history (h : list ModelTurn) (s : Session) : Session :=
  {| messages := messages s; chat_history := h; search_mode := search_mode s;
     gemini_api_key := gemini_api_key s; serper_api_key := serper_api_key s |}.

Definition set_search_mode (b : bool) (s : Session) : Session :=
  {| messages := messages s; chat_history := chat_history s; search_mode := b;
     gemini_api_key := gemini_api_key s; serper_api_key := serper_api_key s |}.

(** [st.session_state.messages.append(m)] and [....chat_history.append(t)] *)
Definition messages_append (m : Message) (s : Session) : Session :=
  set_messages (messages s ++ [m]) s.

Definition chat_history_append (t : ModelTurn) (s : Session) : Session :=
  set_chat_history (chat_history s ++ [t]) s.

(** [generation_config], [safety_settings] and the object returned by
    [genai.GenerativeModel(...)], together with the API key that
    [genai.configure] registered for its requests. *)
Record GenerationConfig := {
  temperature : QArith_base.Q;
  top_p : QArith_base.Q;
  top_k : Z;
  max_output_tokens : Z
}.

Record SafetySetting := { category : string; threshold : string }.

Record GenerativeModel := {
  model_name : string;
  generation_config : GenerationConfig;
  safety_settings : list SafetySetting;
  api_key : string
}.

(** What a remote service does with one request. *)
Inductive reply (A : Type) :=
  | Answer (a : A)
  | Failure (msg : string).
Arguments Answer {A} a.
Arguments Failure {A} msg.

(** The object that [chat.send_message] returns: [response.text] is a
    property, whose reading gives the text or raises (a reply without a
    valid text part). *)
Record Response := { text : reply string }.

(** The remote services during one run of the script.
    [requests_post url headers data] is [requests.post(...).json()]: the
    decoded body, or the failure of the request or of the decoding.
    [send_message model history text] is
    [model.start_chat(history=history).send_message(text)]: the reply
    object, or the failure of the request. *)
Record World := {
  requests_post : string → gmap string string → json → reply json;
  send_message : GenerativeModel → list ModelTurn → string → reply Response
}.

(** An outbound request, as recorded in the trace. *)
Inductive Call :=
  | HttpPost (url : string) (headers : gmap string string) (data : json)
  | SendMessage (model : GenerativeModel) (history : list ModelTurn) (text : string).

(** Code that reads and mutates the session store, issues requests, and may
    raise.  The store and the trace survive an exception. *)
Definition Py (A : Type) : Type := Session → outcome A * Session * list Call.

#[global] Instance Py_ret : MRet Py := λ A a s, (Return a, s, []).
#[global] Instance Py_bind : MBind Py := λ A B f m s,
  match m s with
  | (Return a, s1, t1) => let '(r, s2, t2) := f a s1 in (r, s2, t1 ++ t2)
  | (Raise e, s1, t1) => (Raise e, s1, t1)
  end.

Definition get_state : Py Session := λ s, (Return s, s, []).

Definition modify (f : Session → Session) : Py unit := λ s, (Return tt, f s, []).

Definition lift {A} (o : outcome A) : Py A := λ s, (o, s, []).

Definition of_reply {A} (r : reply A) : outcome A :=
  match r with
  | Answer a => Return a
  | Failure msg => Raise (Raised msg)
  end.

Definition perform {A} (c : Call) (r : reply A) : Py A := λ s, (of_reply r, s, [c]).

(** [try: m  except Exception as e: h e] *)
Definition try_except {A} (m : Py A) (h : exn → Py A) : Py A := λ s,
  match m s with
  | (Return a, s1, t1) => (Return a, s1, t1)
  | (Raise e, s1, t1) => let '(r, s2, t2) := h e s1 in (r, s2, t1 ++ t2)
  end.

Definition result_of {A} (x : outcome A * Session * list Call) : outcome A := x.1.1.
Definition session_of {A} (x : outcome A * Session * list Call) : Session := x.1.2.
Definition trace_of {A} (x : outcome A * Session * list Call) : list Call := x.2.

(** ** The program *)

Definition initialize_session_state (secrets : Secrets) (store : option Session) : Session :=
  match store with
  | Some s => s
  | None =>
      {| messages := []; chat_history := []; search_mode := false;
         gemini_api_key := GEMINI_API_KEY secrets;
         serper_api_key := SERPER_API_KEY secrets |}
  end.

(** The model object that [configure_gemini] builds once [genai.configure]
    has registered the key. *)
Definition generative_model (key : string) : GenerativeModel :=
  let generation_config :=
    {| temperature := QArith_base.Qmake 7 10;
       top_p := QArith_base.Qmake 95 100;
       top_k := 40;
       max_output_tokens := 1024 |} in
  let safety_settings :=
    [ {| category := "HARM_CATEGORY_HARASSMENT"; threshold := "BLOCK_MEDIUM_AND_ABOVE" |};
      {| category := "HARM_CATEGORY_HATE_SPEECH"; threshold := "BLOCK_MEDIUM_AND_ABOVE" |};
      {| category := "HARM_CATEGORY_SEXUALLY_EXPLICIT"; threshold := "BLOCK_MEDIUM_AND_ABOVE" |};
      {| category := "HARM_CATEGORY_DANGEROUS_CONTENT"; threshold := "BLOCK_MEDIUM_AND_ABOVE" |} ] in
  {| model_name := "gemini-2.0-flash";
     generation_config := generation_config;
     safety_settings := safety_settings;
     api_key := key |}.

Definition configure_gemini : Py GenerativeModel :=
  s ← get_state;
  mret (generative_model (gemini_api_key s)).

Section Runtime.
Context `{PyRuntime}.

(** What an f-string prints for [{v}]. *)
Definition py_str (v : json) : string :=
  match v with
  | JStr s => s
  | JNull => "None"
  | JBool true => "True"
  | JBool false => "False"
  | JInt z => pretty z
  | _ => py_repr v
  end.

(** [str(e)] *)
Definition str_exn (e : exn) : string :=
  match e with
  | Raised msg => msg
  | PyError op v => py_exn_text op v
  end.

(** The request that [search_web] sends. *)
Definition search_url : string := "https://google.serper.dev/search".

Definition search_payload (query : string) : json :=
  JObj {[ "q" := JStr (query +:+ " medical information"); "num" := JInt 5 ]}.

Definition search_headers (s : Session) : gmap string string :=
  {[ "X-API-KEY" := serper_api_key s; "Content-Type" := "application/json" ]}.

Definition search_web (w : World) (query : string) : Py json :=
  let url := search_url in
  let payload := search_payload query in
  s ← get_state;
  let headers := search_headers s in
  try_except
    (perform (HttpPost url headers payload) (requests_post w url headers payload))
    (λ e, mret (JObj {[ "error" := JStr (str_exn e) ]})).

(** The block appended for the [i]-th organic entry. *)
Definition organic_entry (i : nat) (title link snippet : json) : string :=
  pretty i +:+ ". " +:+ py_str title +:+ nl +:+
  "   URL: " +:+ py_str link +:+ nl +:+
  "   Description: " +:+ py_str snippet +:+ nl +:+ nl.

Definition answer_box_block (title answer snippet : json) : string :=
  "Featured Medical Answer: " +:+ py_str title +:+ nl +:+
  py_str answer +:+ nl +:+
  py_str snippet +:+ nl +:+ nl.

Definition knowledge_block (title description : json) : string :=
  "Medical Knowledge: " +:+ py_str title +:+ nl +:+
  py_str description +:+ nl +:+ nl.

(** The body of [for i, result in enumerate(items, i): ...], started at
    number [i] with the text accumulated so far. *)
Fixpoint format_organic (i : nat) (items : list json) (formatted_results : string)
  : outcome string :=
  match items with
  | [] => Return formatted_results
  | result :: rest =>
      title ← py_get result "title" "No title";
      link ← py_get result "link" "No link";
      snippet ← py_get result "snippet" "No description";
      format_organic (S i) rest
        (formatted_results +:+ organic_entry i title link snippet)
  end.

Definition format_search_results (results : json) : outcome string :=
  has_error ← py_in "error" results;
  if has_error : bool then
    e ← py_getitem results "error";
    mret ("Error performing search: " +:+ py_str e)
  else
    let formatted_results := "Medical Search Results:" +:+ nl +:+ nl in
    has_organic ← py_in "organic" results;
    formatted_results ←
      (if has_organic : bool then
         organic ← py_getitem results "organic";
         items ← py_slice5 organic;
         format_organic 1 items formatted_results
       else mret formatted_results);
    has_answer ← py_in "answerBox" results;
    formatted_results ←
      (if has_answer : bool then
         answer_box ← py_getitem results "answerBox";
         title ← py_get answer_box "title" "";
         answer ← py_get answer_box "answer" "";
         snippet ← py_get answer_box "snippet" "";
         mret (formatted_results +:+ answer_box_block title answer snippet)
       else mret formatted_results);
    has_kg ← py_in "knowledgeGraph" results;
    formatted_results ←
      (if has_kg : bool then
         kg ← py_getitem results "knowledgeGraph";
         title ← py_get kg "title" "";
         description ← py_get kg "description" "";
         mret (formatted_results +:+ knowledge_block title description)
       else mret formatted_results);
    mret formatted_results.

(** The constant [medical_context] of [get_gemini_response]. *)
Definition medical_context : string :=
  nl +:+
  "        You are MediAssist, a helpful and compassionate medical AI assistant. Your purpose is to provide" +:+ nl +:+
  "        information about medical conditions, treatments, and general health advice. " +:+ nl +:+
  "        " +:+ nl +:+
  "        Important guidelines:" +:+ nl +:+
  "        1. Always clarify that you're an AI and not a doctor" +:+ nl +:+
  "        2. Recommend consulting healthcare professionals for diagnosis and treatment" +:+ nl +:+
  "        3. Provide factual, evidence-based information" +:+ nl +:+
  "        4. Be empathetic and supportive in your tone" +:+ nl +:+
  "        5. Never make definitive diagnoses" +:+ nl +:+
  "        6. Emphasize the importance of seeking proper medical care" +:+ nl +:+
  "        7. Use clear, understandable language without excessive medical jargon" +:+ nl +:+
  "        ".

(** The f-string of the search branch. *)
Definition search_prompt (medical_context prompt search_context : string) : string :=
  nl +:+
  "            " +:+ medical_context +:+ nl +:+
  "            " +:+ nl +:+
  "            The user query is: " +:+ prompt +:+ nl +:+
  "            " +:+ nl +:+
  "            Here are relevant medical search results from the web:" +:+ nl +:+
  "            " +:+ search_context +:+ nl +:+
  "            " +:+ nl +:+
  "            Please provide a helpful response based on these search results and your knowledge. " +:+ nl +:+
  "            If the search results are relevant, incorporate that information. " +:+ nl +:+
  "            Always cite the sources if you use information from the search results." +:+ nl +:+
  "            Remember to follow the medical guidelines provided above." +:+ nl +:+
  "            ".

(** The f-string of the branch without search. *)
Definition plain_prompt (medical_context prompt : string) : string :=
  nl +:+
  "            " +:+ medical_context +:+ nl +:+
  "            " +:+ nl +:+
  "            The user query is: " +:+ prompt +:+ nl +:+
  "            " +:+ nl +:+
  "            Please provide a helpful response based on your medical knowledge." +:+ nl +:+
  "            Remember to follow the medical guidelines provided above." +:+ nl +:+
  "            ".

(** The query searched for when [with_search and query] holds. *)
Definition search_query (with_search : bool) (query : option string) : option string :=
  match query with
  | Some q => if with_search && truthy q then Some q else None
  | None => None
  end.

(** The statements under [try:] in [get_gemini_response]. *)
Definition get_gemini_response_try (w : World) (model : GenerativeModel)
    (prompt : string) (with_search : bool) (query : option string) : Py string :=
  full_prompt ←
    match search_query with_search query with
    | Some q =>
        search_results ← search_web w q;
        search_context ← lift (format_search_results search_results);
        mret (search_prompt medical_context prompt search_context)
    | None => mret (plain_prompt medical_context prompt)
    end;
  s ← get_state;
  response ← perform (SendMessage model (chat_history s) full_prompt)
                     (send_message w model (chat_history s) full_prompt);
  (* update chat history: the user entry is appended before [response.text]
     is read for the model entry *)
  _ ← modify (chat_history_append {| mrole := "user"; parts := [prompt] |});
  reply_text ← lift (of_reply (text response));
  _ ← modify (chat_history_append {| mrole := "model"; parts := [reply_text] |});
  (* return response.text *)
  lift (of_reply (text response)).

Definition get_gemini_response (w : World) (model : GenerativeModel)
    (prompt : string) (with_search : bool) (query : option string) : Py string :=
  try_except (get_gemini_response_try w model prompt with_search query)
    (λ e, mret ("An error occurred: " +:+ str_exn e)).

(** The content of the introduction message. *)
Definition introduction : string :=
  "Hello! I'm MediAssist, your medical AI assistant. I can help answer your health questions and provide general medical information. How may I assist you today? Remember, I'm not a doctor, and my responses shouldn't replace professional medical advice.".

Definition greeting : Message := {| role := "assistant"; content := introduction |}.

(** What the widgets return during one run of the script:
    [st.toggle(...)], [st.button("Clear Chat History")] and [st.chat_input(...)]. *)
Record UI := { search_toggle : bool; clear_button : bool; chat_input : option string }.

(** The script body after [initialize_session_state()]. *)
Definition main_script (w : World) (ui : UI) : Py unit :=
  (* sidebar: search mode toggle *)
  s ← get_state;
  _ ← (if negb (eqb (search_toggle ui) (search_mode s))
       then modify (set_search_mode (search_toggle ui))
       else mret tt);
  (* sidebar: clear chat button *)
  _ ← (if clear_button ui
       then _ ← modify (set_messages []); modify (set_chat_history [])
       else mret tt);
  (* introduction message *)
  s ← get_state;
  _ ← (if bool_decide (messages s = [])
       then modify (messages_append greeting)
       else mret tt);
  (* process user input *)
  match chat_input ui with
  | Some user_prompt =>
      if truthy user_prompt then
        model ← configure_gemini;
        _ ← modify (messages_append {| role := "user"; content := user_prompt |});
        s ← get_state;
        full_response ←
          get_gemini_response w model user_prompt (search_mode s)
            (if search_mode s then Some user_prompt else None);
        modify (messages_append {| role := "assistant"; content := full_response |})
      else mret tt
  | None => mret tt
  end.

Definition main (w : World) (secrets : Secrets) (ui : UI) (store : option Session)
  : outcome unit * Session * list Call :=
  main_script w ui (initialize_session_state secrets store).

(** A browser session: the script re-run once per UI event, each run with
    the state of the remote services at that time. *)
Definition run (secrets : Secrets) (events : list (World * UI)) (store : option Session)
  : option Session :=
  foldl (λ st ev, Some (session_of (main ev.1 secrets ev.2 st))) store events.

End Runtime.

(** ** The data model of the specification

    A [SearchResult] is the provider's document read at its declared type;
    [encode] is the JSON object it stands for (a key is present exactly when
    the field is). *)

Record OrganicEntry := {
  title : option string; link : option string; snippet : option string }.
Record AnswerBox := {
  ab_title : option string; ab_answer : option string; ab_snippet : option string }.
Record KnowledgeGraph := {
  kg_title : option string; kg_description : option string }.
Record SearchResult := {
  organicEntries : option (list OrganicEntry);
  answerBox : option AnswerBox;
  knowledgeGraph : option KnowledgeGraph;
  error : option string }.

Definition with_key (k : string) (o : option json) (d : gmap string json)
  : gmap string json :=
  match o with
  | Some v => <[k := v]> d
  | None => d
  end.

Definition encode_entry (e : OrganicEntry) : json :=
  JObj (with_key "title" (JStr <$> title e)
       (with_key "link" (JStr <$> link e)
       (with_key "snippet" (JStr <$> snippet e) ∅))).

Definition encode_answer_box (a : AnswerBox) : json :=
  JObj (with_key "title" (JStr <$> ab_title a)
       (with_key "answer" (JStr <$> ab_answer a)
       (with_key "snippet" (JStr <$> ab_snippet a) ∅))).

Definition encode_knowledge_graph (k : KnowledgeGraph) : json :=
  JObj (with_key "title" (JStr <$> kg_title k)
       (with_key "description" (JStr <$> kg_description k) ∅)).

Definition encode_fields (r : SearchResult) : gmap string json :=
  with_key "organic" ((λ es, JArr (encode_entry <$> es)) <$> organicEntries r)
  (with_key "answerBox" (encode_answer_box <$> answerBox r)
  (with_key "knowledgeGraph" (encode_knowledge_graph <$> knowledgeGraph r)
  (with_key "error" (JStr <$> error r) ∅))).

Definition encode (r : SearchResult) : json := JObj (encode_fields r).

(** The result of a failed search: the error and nothing else. *)
Definition error_only (msg : string) : SearchResult :=
  {| organicEntries := None; answerBox := None; knowledgeGraph := None;
     error := Some msg |}.

(** The result with its organic entries cut after the fifth. *)
Definition truncate5 (r : SearchResult) : SearchResult :=
  {| organicEntries := take 5 <$> organicEntries r;
     answerBox := answerBox r;
     knowledgeGraph := knowledgeGraph r;
     error := error r |}.

Definition header : string := "Medical Search Results:" +:+ nl +:+ nl.

(** The three sections of the formatted block, each with the text that
    stands for a missing sub-field. *)
Definition entry_block (i : nat) (e : OrganicEntry) : string :=
  pretty i +:+ ". " +:+ default "No title" (title e) +:+ nl +:+
  "   URL: " +:+ default "No link" (link e) +:+ nl +:+
  "   Description: " +:+ default "No description" (snippet e) +:+ nl +:+ nl.

Fixpoint numbered_entries (i : nat) (es : list OrganicEntry) : string :=
  match es with
  | [] => ""
  | e :: rest => entry_block i e +:+ numbered_entries (S i) rest
  end.

Definition organic_section (r : SearchResult) : string :=
  numbered_entries 1 (take 5 (default [] (organicEntries r))).

Definition answer_section (r : SearchResult) : string :=
  match answerBox r with
  | Some a =>
      "Featured Medical Answer: " +:+ default "" (ab_title a) +:+ nl +:+
      default "" (ab_answer a) +:+ nl +:+
      default "" (ab_snippet a) +:+ nl +:+ nl
  | None => ""
  end.

Definition knowledge_section (r : SearchResult) : string :=
  match knowledgeGraph r with
  | Some k =>
      "Medical Knowledge: " +:+ default "" (kg_title k) +:+ nl +:+
      default "" (kg_description k) +:+ nl +:+ nl
  | None => ""
  end.

(** ** Reading the policy preamble *)

(** The lines of a text. *)
Fixpoint lines (s : string) : list string :=
  match s with
  | EmptyString => [""]
  | String c s' =>
      match lines s' with
      | l :: ls => if Ascii.eqb c "010" then "" :: l :: ls else String c l :: ls
      | [] => []
      end
  end.

Fixpoint lstrip (s : string) : string :=
  match s with
  | String " " s' => lstrip s'
  | _ => s
  end.

Definition is_digit (c : ascii) : bool :=
  (48 <=? nat_of_ascii c) && (nat_of_ascii c <=? 57).

(** A line of the form [<digit>. ...]. *)
Definition is_numbered (l : string) : bool :=
  match l with
  | String d (String "." (String " " _)) => is_digit d
  | _ => false
  end.

Definition numbered_guidelines (context : string) : list string :=
  filter (λ l, is_numbered l = true) (lstrip <$> lines context).

(** The start of both prompt templates. *)
Definition preamble : string := nl +:+ "            " +:+ medical_context.

Definition sends_preamble (c : Call) : bool :=
  match c with
  | SendMessage _ _ text => String.prefix preamble text
  | HttpPost _ _ _ => true
  end.

(** ** Relating the two histories *)

Definition user_message (q : string) : Message := {| role := "user"; content := q |}.
Definition assistant_message (r : string) : Message := {| role := "assistant"; content := r |}.
Definition user_turn (q : string) : ModelTurn := {| mrole := "user"; parts := [q] |}.
Definition model_turn (r : string) : ModelTurn := {| mrole := "model"; parts := [r] |}.

(** [aligned ms h]: the display pairs [ms] (the greeting left out) and the
    model context [h] were built by the same turns, in the same order: a
    completed exchange adds a pair to both, a failed turn adds its pair (the
    query and the error string) to the display only. *)
Inductive aligned : list Message → list ModelTurn → Prop :=
  | aligned_nil : aligned [] []
  | aligned_completed ms h q r :
      aligned ms h →
      aligned (ms ++ [user_message q; assistant_message r])
              (h ++ [user_turn q; model_turn r])
  | aligned_failed ms h q e :
      aligned ms h →
      aligned (ms ++ [user_message q; assistant_message ("An error occurred: " +:+ e)]) h.

Definition is_answer {A} (r : reply A) : bool :=
  match r with
  | Answer _ => true
  | Failure _ => false
  end.

(** The questions shown in a display history: the contents of its user
    messages, in order. *)
Definition asked (ms : list Message) : list string :=
  content <$> filter (λ m, role m = "user") ms.

(** The questions of one run and of a series of runs: the non-empty text
    submitted in a run, and the questions submitted since the clear button
    was last pressed (a question submitted in the run of the clear
    included). *)
Definition question (ui : UI) : list string :=
  match chat_input ui with
  | Some p => if truthy p then [p] else []
  | None => []
  end.

Definition submitted (uis : list UI) : list string :=
  foldl (λ qs ui, (if clear_button ui then [] else qs) ++ question ui) [] uis.

(** A provider whose replies, when it answers, have a text that can be
    read. *)
Definition readable (w : World) : Prop :=
  ∀ model history full response,
    send_message w model history full = Answer response →
    is_answer (text response) = true.

(** The number of (user, assistant) pairs that follow the greeting, and the
    number of (user, model) pairs. *)
Definition display_pairs (s : Session) : nat := (length (messages s) - 1) / 2.
Definition context_pairs (s : Session) : nat := length (chat_history s) / 2.

(** An LLM request that the provider answered with a reply whose text can
    be read. *)
Definition answered (w : World) (c : Call) : bool :=
  match c with
  | SendMessage m h t =>
      match send_message w m h t with
      | Answer response => is_answer (text response)
      | Failure _ => false
      end
  | HttpPost _ _ _ => false
  end.

(** The answered LLM requests of a trace: the completed (non-error)
    exchanges of the run that produced the trace. *)
Definition completed (w : World) (trace : list Call) : nat :=
  length (filter (λ c, answered w c = true) trace).

Section Sessions.
Context `{PyRuntime}.

(** A browser session with its bookkeeping made explicit: the store after
    the events, and the number of exchanges completed since the chat was
    last cleared. *)
Definition run_counting (secrets : Secrets) (events : list (World * UI))
  : option Session * nat :=
  foldl (λ st ev,
           let r := main ev.1 secrets ev.2 st.1 in
           (Some (session_of r),
            (if clear_button ev.2 then 0 else st.2) + completed ev.1 (trace_of r)))
        (None, 0) events.

End Sessions.

(** ** Auxiliary definitions for the proofs *)

(** [mismatch p s]: [p] and [s] differ at a position that both have. *)
Fixpoint mismatch (p s : string) : bool :=
  match p, s with
  | String a p', String b s' => negb (Ascii.eqb a b) || mismatch p' s'
  | _, _ => false
  end.

(** [inert p a]: no occurrence of [p] can start inside [a], whatever follows. *)
Fixpoint inert (p a : string) : bool :=
  match a with
  | EmptyString => true
  | String _ a' => mismatch p a && inert p a'
  end.

(** The character [c] occurs in [p]. *)
Fixpoint occurs (c : ascii) (p : string) : bool :=
  match p with
  | EmptyString => false
  | String a p' => Ascii.eqb a c || occurs c p'
  end.

(** The substring that the formatter's heading carries. *)
Definition marker : string := "Medical Search Results".

(** The document that [search_web] hands to the formatter. *)
Definition search_document (w : World) (query : string) (s : Session) : json :=
  match requests_post w search_url (search_headers s) (search_payload query) with
  | Answer v => v
  | Failure msg => JObj {[ "error" := JStr msg ]}
  end.

(** The end of the [try] block once the prompt [full] is built, the requests
    [before] having been issued. *)
Definition ask (w : World) (model : GenerativeModel) (prompt full : string)
    (before : list Call) (s : Session) : outcome string * Session * list Call :=
  let call := SendMessage model (chat_history s) full in
  match send_message w model (chat_history s) full with
  | Answer response =>
      match text response with
      | Answer r =>
          (Return r,
           chat_history_append (model_turn r) (chat_history_append (user_turn prompt) s),
           before ++ [call])
      | Failure msg =>
          (Raise (Raised msg), chat_history_append (user_turn prompt) s, before ++ [call])
      end
  | Failure msg => (Raise (Raised msg), s, before ++ [call])
  end.

(** The store when the script reaches the chat input: after the sidebar and
    the introduction message. *)
Definition prepared (ui : UI) (s0 : Session) : Session :=
  let s1 := if negb (eqb (search_toggle ui) (search_mode s0))
            then set_search_mode (search_toggle ui) s0 else s0 in
  let s2 := if clear_button ui
            then set_chat_history [] (set_messages [] s1) else s1 in
  if bool_decide (messages s2 = []) then messages_append greeting s2 else s2.

Section Recovery.
Context `{PyRuntime}.

(** The effect of the [except] clause of [get_gemini_response] on the
    outcome of its [try] block. *)
Definition recover (x : outcome string * Session * list Call)
  : outcome string * Session * list Call :=
  match x with
  | (Return reply, s, t) => (Return reply, s, t)
  | (Raise e, s, t) => (Return ("An error occurred: " +:+ str_exn e), s, t)
  end.

End Recovery.


(** The invariant of a session: the display history is the greeting followed
    by pairs aligned with the model context, whose length is twice [n], and
    the questions shown are [qs]. *)
Definition session_inv (s : Session) (n : nat) (qs : list string) : Prop :=
  ∃ ms, messages s = greeting :: ms ∧ aligned ms (chat_history s) ∧
        length (chat_history s) = 2 * n ∧ asked ms = qs.

Definition store_inv (st : option Session * nat) (qs : list string) : Prop :=
  match st.1 with
  | Some s => session_inv s st.2 qs
  | None => st.2 = 0 ∧ qs = []
  end.

Ltac py_unfold :=
  unfold mbind, Py_bind, mret, Py_ret, get_state, perform, modify, lift, try_except.

Ltac py_step :=
  cbv beta iota zeta delta [mbind Py_bind mret Py_ret get_state modify fst snd].

(** ** Sample data *)

Definition sample_secrets : Secrets :=
  {| GEMINI_API_KEY := "gemini-key"; SERPER_API_KEY := "serper-key" |}.

Definition sample_session : Session := initialize_session_state sample_secrets None.

Definition sample_model : GenerativeModel := generative_model "gemini-key".

Definition mayo : OrganicEntry :=
  {| title := Some "Migraine - Mayo Clinic"; link := Some "https://www.mayoclinic.org";
     snippet := None |}.

(** A result with seven organic entries and an answer box without fields. *)
Definition sample_result : SearchResult :=
  {| organicEntries := Some (replicate 7 mayo);
     answerBox := Some {| ab_title := None; ab_answer := None; ab_snippet := None |};
     knowledgeGraph := None;
     error := None |}.

(** A result whose answer box has no sub-field, and the same result with
    every sub-field present and empty. *)
Definition bare_answer_box : SearchResult :=
  {| organicEntries := None;
     answerBox := Some {| ab_title := None; ab_answer := None; ab_snippet := None |};
     knowledgeGraph := None;
     error := None |}.

Definition empty_answer_box : SearchResult :=
  {| organicEntries := None;
     answerBox := Some {| ab_title := Some ""; ab_answer := Some ""; ab_snippet := Some "" |};
     knowledgeGraph := None;
     error := None |}.

(** Both services answer. *)
Definition world_up : World :=
  {| requests_post := λ _ _ _, Answer (encode sample_result);
     send_message := λ _ _ _, Answer {| text := Answer "Rest in a dark room." |} |}.

(** Both services fail. *)
Definition world_down : World :=
  {| requests_post := λ _ _ _, Failure "connection timed out";
     send_message := λ _ _ _, Failure "quota exceeded" |}.


(** The LLM provider answers with a reply whose text cannot be read. *)
Definition world_unreadable : World :=
  {| requests_post := λ _ _ _, Failure "connection timed out";
     send_message := λ _ _ _, Answer {| text := Failure "no valid part in the response" |} |}.

(** The body of a refused request: a dict with none of the known keys. *)
Definition unauthorized_body : gmap string json :=
  {[ "message" := JStr "Unauthorized."; "statusCode" := JInt 403 ]}.



Definition submit (search : bool) (q : string) : UI :=
  {| search_toggle := search; clear_button := false; chat_input := Some q |}.

Definition press_clear : UI :=
  {| search_toggle := false; clear_button := true; chat_input := None |}.

(** A failed turn followed by a completed one. *)
Definition sample_events : list (World * UI) :=
  [ (world_down, submit false "What causes a migraine?");
    (world_up, submit false "And how is it treated?") ].

Definition sample_final : Session :=
  {| messages :=
       [ greeting;
         user_message "What causes a migraine?";
         assistant_message "An error occurred: quota exceeded";
         user_message "And how is it treated?";
         assistant_message "Rest in a dark room." ];
     chat_history :=
       [ user_turn "And how is it treated?"; model_turn "Rest in a dark room." ];
     search_mode := false;
     gemini_api_key := "gemini-key";
     serper_api_key := "serper-key" |}.

(** ** Shapes of documents and of requests *)

(** A document on which [k in v] raises: [null], a boolean or a number. *)
Definition is_scalar (v : json) : bool :=
  match v with
  | JNull | JBool _ | JInt _ | JFloat _ => true
  | JStr _ | JArr _ | JObj _ => false
  end.

Definition is_obj (v : json) : bool :=
  match v with
  | JObj _ => true
  | _ => false
  end.



(** [k in v] on a document that is an array or a string. *)
Definition key_occurs (k : string) (v : json) : bool :=
  match v with
  | JArr l => existsb (is_str k) l
  | JStr s => str_contains k s
  | _ => false
  end.

(** The four keys that [format_search_results] looks for. *)
Definition known_keys : list string := ["error"; "organic"; "answerBox"; "knowledgeGraph"].

Section Reruns.
Context `{PyRuntime}.

(** A browser session in which each run of the script finds its own secrets:
    what [st.secrets] holds may change between two runs. *)
Definition run_secrets (events : list (World * Secrets * UI)) (store : option Session)
  : option Session :=
  foldl (λ st ev, Some (session_of (main ev.1.1 ev.1.2 ev.2 st))) store events.

End Reruns.

(** ** More sample data *)

(** A dict with an error beside an ill-typed "organic". *)
Definition error_beside_data : gmap string json :=
  {[ "error" := JStr "rate limit"; "organic" := JInt 3 ]}.

(** A dict whose second organic item is not an object. *)
Definition stray_item : gmap string json :=
  {[ "organic" := JArr [JObj ∅; JStr "oops"; JObj ∅] ]}.

(** The search answers with the document [null]; the LLM provider answers. *)
Definition world_null_document : World :=
  {| requests_post := λ _ _ _, Answer JNull;
     send_message := λ _ _ _, Answer {| text := Answer "Rest in a dark room." |} |}.

(** Secrets that were replaced after the session had started. *)
Definition later_secrets : Secrets :=
  {| GEMINI_API_KEY := "rotated-gemini-key"; SERPER_API_KEY := "rotated-serper-key" |}.

Definition only_toggle : UI :=
  {| search_toggle := true; clear_button := false; chat_input := None |}.
(** * Properties *)

(** ** Substring tests across concatenation *)

Lemma append_nil x : "" +:+ x = x.
Proof. reflexivity. Qed.

Lemma append_cons c a x : String c a +:+ x = String c (a +:+ x).
Proof. reflexivity. Qed.

Lemma append_assoc a b c : (a +:+ b) +:+ c = a +:+ b +:+ c.
Proof. induction a as [|d a IH]; [done|]. by rewrite !append_cons, IH. Qed.

Lemma append_nil_r a : a +:+ "" = a.
Proof. induction a as [|d a IH]; [done|]. by rewrite append_cons, IH. Qed.

Lemma length_append a b : String.length (a +:+ b) = String.length a + String.length b.
Proof. induction a as [|d a IH]; [done|]. rewrite append_cons. cbn. by rewrite IH. Qed.

Lemma prefix_cons a p b s :
  String.prefix (String a p) (String b s) = Ascii.eqb a b && String.prefix p s.
Proof.
  simpl. destruct (Ascii.ascii_dec a b) as [->|Hne].
  - by rewrite Ascii.eqb_refl.
  - apply Ascii.eqb_neq in Hne. by rewrite Hne.
Qed.

Lemma prefix_append q y : String.prefix q (q +:+ y) = true.
Proof.
  induction q as [|d q IHq]; [by destruct y|].
  by rewrite append_cons, prefix_cons, Ascii.eqb_refl, IHq.
Qed.

Lemma mismatch_prefix p : ∀ a x, mismatch p a = true → String.prefix p (a +:+ x) = false.
Proof.
  induction p as [|c p IH]; intros [|b a] x; cbn [mismatch]; try discriminate.
  rewrite append_cons, prefix_cons.
  destruct (Ascii.eqb c b); cbn; [apply IH | done].
Qed.

Lemma inert_left p a x : inert p a = true → str_contains p (a +:+ x) = str_contains p x.
Proof.
  induction a as [|b a IH]; [done|].
  cbn [inert]. intros [Hm Hi]%andb_prop.
  rewrite append_cons. cbn [str_contains]. rewrite <- append_cons.
  by rewrite (mismatch_prefix _ _ _ Hm), IH.
Qed.

Lemma prefix_sep p c : occurs c p = false →
  ∀ y b, String.prefix p (y +:+ String c b) = String.prefix p y.
Proof.
  induction p as [|a p IH]; intros Hc y b.
  - by destruct y.
  - cbn [occurs] in Hc. apply orb_false_elim in Hc as [Hac Hp].
    destruct y as [|d y].
    + rewrite append_nil, prefix_cons, Hac. done.
    + rewrite append_cons, !prefix_cons, IH; done.
Qed.

Lemma contains_sep p c x b : occurs c p = false →
  str_contains p (x +:+ String c b) = str_contains p x || str_contains p (String c b).
Proof.
  intros Hc. induction x as [|a x IH].
  - rewrite append_nil. destruct p as [|d p]; [done|].
    cbn [str_contains String.prefix orb]. done.
  - rewrite append_cons. cbn [str_contains]. rewrite <- append_cons.
    rewrite prefix_sep, IH by done.
    by rewrite orb_assoc.
Qed.

Section Properties.
Context `{PyRuntime}.

(** ** The effect monads *)

Lemma bind_Return {A B} (m : outcome A) (f : A → outcome B) b :
  m ≫= f = Return b → ∃ a, m = Return a ∧ f a = Return b.
Proof. destruct m as [a|e]; [eauto | discriminate]. Qed.

(** ** One turn, case by case *)

Lemma search_web_unfold w query s :
  search_web w query s =
  (Return (search_document w query s), s,
   [HttpPost search_url (search_headers s) (search_payload query)]).
Proof.
  unfold search_web, search_document. py_unfold.
  cbn. destruct (requests_post _ _ _ _); reflexivity.
Qed.

Lemma get_gemini_response_try_unfold w model prompt with_search query s :
  get_gemini_response_try w model prompt with_search query s =
  match search_query with_search query with
  | None => ask w model prompt (plain_prompt medical_context prompt) [] s
  | Some q =>
      let post := HttpPost search_url (search_headers s) (search_payload q) in
      match format_search_results (search_document w q s) with
      | Return block =>
          ask w model prompt (search_prompt medical_context prompt block) [post] s
      | Raise e => (Raise e, s, [post])
      end
  end.
Proof.
  unfold get_gemini_response_try, ask.
  destruct (search_query with_search query) as [q|].
  - unfold mbind at 1 2. unfold Py_bind at 1 2. unfold mbind at 1. unfold Py_bind at 1.
    rewrite search_web_unfold. unfold lift.
    destruct (format_search_results _) as [block|e]; [|reflexivity].
    py_unfold. destruct (send_message _ _ _ _) as [[[?|?]]|?]; reflexivity.
  - py_unfold. destruct (send_message _ _ _ _) as [[[?|?]]|?]; reflexivity.
Qed.

Lemma get_gemini_response_unfold w model prompt with_search query s :
  get_gemini_response w model prompt with_search query s =
  recover (get_gemini_response_try w model prompt with_search query s).
Proof.
  unfold get_gemini_response, try_except, recover.
  destruct (get_gemini_response_try _ _ _ _ _ _) as [[[reply|e] s'] t]; [done|].
  unfold mret, Py_ret. by rewrite app_nil_r.
Qed.

(** The turn handler always hands back a string. *)
Lemma get_gemini_response_returns w model prompt with_search query s :
  ∃ out, result_of (get_gemini_response w model prompt with_search query s) = Return out.
Proof.
  rewrite get_gemini_response_unfold. unfold recover.
  destruct (get_gemini_response_try _ _ _ _ _ _) as [[[reply|e] s'] t]; eauto.
Qed.

Lemma main_unfold w secrets ui store :
  main w secrets ui store =
  let s := prepared ui (initialize_session_state secrets store) in
  match chat_input ui with
  | Some user_prompt =>
      if truthy user_prompt then
        let s1 := messages_append (user_message user_prompt) s in
        let model := generative_model (gemini_api_key s) in
        let r := get_gemini_response w model user_prompt (search_mode s1)
                   (if search_mode s1 then Some user_prompt else None) s1 in
        match result_of r with
        | Return full_response =>
            (Return (), messages_append (assistant_message full_response) (session_of r),
             trace_of r)
        | Raise e => (Raise e, session_of r, trace_of r)
        end
      else (Return (), s, [])
  | None => (Return (), s, [])
  end.
Proof.
  unfold main, main_script, prepared, configure_gemini, user_message, assistant_message,
    result_of, session_of, trace_of.
  generalize (initialize_session_state secrets store). intros s0.
  py_step. destruct (negb (eqb (search_toggle ui) (search_mode s0)));
    py_step; (destruct (clear_button ui)); py_step;
    (destruct (bool_decide _)); py_step;
    (destruct (chat_input ui) as [user_prompt|]; [destruct (truthy user_prompt)|]);
    py_step; try reflexivity;
    (destruct (get_gemini_response _ _ _ _ _ _) as [[[r|e] s'] t]); py_step;
    rewrite ?app_nil_r; reflexivity.
Qed.


Lemma contains_here p b : str_contains p (p +:+ b) = true.
Proof. destruct (p +:+ b) eqn:E; cbn [str_contains]; by rewrite <- E, prefix_append. Qed.

Lemma contains_skip p a x : str_contains p x = true → str_contains p (a +:+ x) = true.
Proof.
  intros Hx. induction a as [|c a IH]; [done|].
  rewrite append_cons. cbn [str_contains]. by rewrite IH, orb_true_r.
Qed.

Lemma prompt_in_plain mc prompt : str_contains prompt (plain_prompt mc prompt) = true.
Proof. unfold plain_prompt. repeat first [apply contains_here | apply contains_skip]. Qed.

Lemma prompt_in_search mc prompt block :
  str_contains prompt (search_prompt mc prompt block) = true.
Proof. unfold search_prompt. repeat first [apply contains_here | apply contains_skip]. Qed.

Lemma plain_longer mc prompt : String.length prompt < String.length (plain_prompt mc prompt).
Proof. unfold plain_prompt. rewrite !length_append. change (String.length nl) with 1. lia. Qed.

Lemma search_longer mc prompt block :
  String.length prompt < String.length (search_prompt mc prompt block).
Proof. unfold search_prompt. rewrite !length_append. change (String.length nl) with 1. lia. Qed.

Lemma ask_Return w model prompt full before s reply s' tr :
  ask w model prompt full before s = (Return reply, s', tr) →
  tr = before ++ [SendMessage model (chat_history s) full] ∧
  (∃ response, send_message w model (chat_history s) full = Answer response ∧
               text response = Answer reply) ∧
  chat_history s' = chat_history s ++ [user_turn prompt; model_turn reply].
Proof.
  unfold ask. destruct (send_message _ _ _ _) as [response|msg] eqn:E; [|discriminate].
  destruct (text response) as [r|msg] eqn:Et; [|discriminate].
  intros [= <- <- <-]. split_and!; [done | by exists response |].
  cbn. by rewrite <- app_assoc.
Qed.

(** C1 (amended).  A completed turn hands the provider the stored model
    context as it was before the turn together with the full prompt, and then
    appends to the stored context, in this order, a user entry holding the
    user's own query and a model entry holding the reply; the entries stored
    before stay in place.  The full prompt contains the query and is strictly
    longer than it. *)
Theorem completed_turn_extends_history w model prompt with_search query s reply s' tr :
  get_gemini_response_try w model prompt with_search query s = (Return reply, s', tr) →
  ∃ full before,
    tr = before ++ [SendMessage model (chat_history s) full] ∧
    (∃ response, send_message w model (chat_history s) full = Answer response ∧
                 text response = Answer reply) ∧
    chat_history s' = chat_history s ++ [user_turn prompt; model_turn reply] ∧
    str_contains prompt full = true ∧
    String.length prompt < String.length full.
Proof.
  rewrite get_gemini_response_try_unfold.
  destruct (search_query with_search query) as [q|].
  - cbv zeta. destruct (format_search_results _) as [block|e]; [|discriminate].
    intros (-> & Hsend & Hh)%ask_Return.
    eexists _, _. split_and!; [done..| apply prompt_in_search | apply search_longer].
  - intros (-> & Hsend & Hh)%ask_Return.
    eexists _, _. split_and!; [done..| apply prompt_in_plain | apply plain_longer].
Qed.

Lemma ask_failed w model prompt full before s :
  (∀ msg, send_message w model (chat_history s) full = Failure msg →
     result_of (recover (ask w model prompt full before s))
       = Return ("An error occurred: " +:+ msg) ∧
     session_of (recover (ask w model prompt full before s)) = s) ∧
  (∀ response msg,
     send_message w model (chat_history s) full = Answer response →
     text response = Failure msg →
     result_of (recover (ask w model prompt full before s))
       = Return ("An error occurred: " +:+ msg) ∧
     session_of (recover (ask w model prompt full before s))
       = chat_history_append (user_turn prompt) s).
Proof.
  unfold recover, ask. split.
  - by intros msg ->.
  - by intros response msg -> ->.
Qed.

(** C3 (the code departs from it).  When the request of a turn to the LLM
    provider raises, the turn handler returns "An error occurred: " followed
    by the text of the exception and the session store is as before the call.
    When the provider answers with a reply whose text cannot be read, the
    handler returns such a string too, but the user entry of the turn is
    already stored: the model context is the one from before the call
    followed by that entry, one entry longer than before. *)
Theorem llm_failure_history w model prompt with_search query s m h t :
  SendMessage m h t ∈ trace_of (get_gemini_response w model prompt with_search query s) →
  (∀ msg,
     send_message w m h t = Failure msg →
     result_of (get_gemini_response w model prompt with_search query s)
       = Return ("An error occurred: " +:+ msg) ∧
     String.prefix "An error occurred:" ("An error occurred: " +:+ msg) = true ∧
     session_of (get_gemini_response w model prompt with_search query s) = s) ∧
  (∀ response msg,
     send_message w m h t = Answer response →
     text response = Failure msg →
     result_of (get_gemini_response w model prompt with_search query s)
       = Return ("An error occurred: " +:+ msg) ∧
     String.prefix "An error occurred:" ("An error occurred: " +:+ msg) = true ∧
     chat_history (session_of (get_gemini_response w model prompt with_search query s))
       = chat_history s ++ [user_turn prompt] ∧
     length (chat_history (session_of (get_gemini_response w model prompt with_search query s)))
       = S (length (chat_history s))).
Proof.
  rewrite get_gemini_response_unfold, get_gemini_response_try_unfold.
  assert (Hlen : length (chat_history s ++ [user_turn prompt]) = S (length (chat_history s)))
    by (rewrite length_app; cbn; lia).
  assert (Hask : ∀ full before,
    SendMessage m h t ∈ trace_of (recover (ask w model prompt full before s)) →
    SendMessage m h t ∈ before ∨ (m = model ∧ h = chat_history s ∧ t = full)).
  { intros full before. unfold recover, ask.
    destruct (send_message _ _ _ _) as [[[?|?]]|?]; cbn;
      (intros [?|[= -> -> ->]%list_elem_of_singleton]%elem_of_app; [by left | by right]). }
  destruct (search_query with_search query) as [q|]; cbv zeta.
  - destruct (format_search_results _) as [block|e].
    + intros [[?|?%elem_of_nil]%elem_of_cons|(-> & -> & ->)]%Hask; [done..|].
      destruct (ask_failed w model prompt
                  (search_prompt medical_context prompt block)
                  [HttpPost search_url (search_headers s) (search_payload q)] s) as [H1 H2].
      split.
      * intros msg Hs. destruct (H1 msg Hs) as [-> ->]. done.
      * intros response msg Hs Ht. destruct (H2 response msg Hs Ht) as [-> ->]. done.
    + cbn. intros [?|?%elem_of_nil]%elem_of_cons; done.
  - intros [?%elem_of_nil|(-> & -> & ->)]%Hask; [done|].
    destruct (ask_failed w model prompt (plain_prompt medical_context prompt) [] s)
      as [H1 H2].
    split.
    + intros msg Hs. destruct (H1 msg Hs) as [-> ->]. done.
    + intros response msg Hs Ht. destruct (H2 response msg Hs Ht) as [-> ->]. done.
Qed.


(** C9.  A run of the script in which the clear button was pressed (and no
    question submitted) ends with an empty model context and a display
    history that holds the greeting and nothing else. *)
Theorem clear_resets w secrets ui store :
  clear_button ui = true →
  truthy_opt (chat_input ui) = false →
  messages (session_of (main w secrets ui store)) = [greeting] ∧
  chat_history (session_of (main w secrets ui store)) = [] ∧
  trace_of (main w secrets ui store) = [].
Proof.
  intros Hc Hq. rewrite main_unfold. unfold prepared. rewrite Hc. cbv zeta.
  destruct (chat_input ui) as [p|]; cbn in Hq; [rewrite Hq|]; cbn; done.
Qed.

(** ** The two histories along a session *)

Lemma completed_app w t1 t2 : completed w (t1 ++ t2) = completed w t1 + completed w t2.
Proof. unfold completed. by rewrite filter_app, length_app. Qed.

(** The three ways a turn can end: completed; failed with the store as it
    was; failed on reading the text of the reply, the user entry already
    stored. *)
Lemma turn_cases w model prompt with_search query s :
  (∃ reply,
     result_of (get_gemini_response w model prompt with_search query s) = Return reply ∧
     session_of (get_gemini_response w model prompt with_search query s)
       = chat_history_append (model_turn reply) (chat_history_append (user_turn prompt) s) ∧
     completed w (trace_of (get_gemini_response w model prompt with_search query s)) = 1) ∨
  (∃ e,
     result_of (get_gemini_response w model prompt with_search query s)
       = Return ("An error occurred: " +:+ e) ∧
     session_of (get_gemini_response w model prompt with_search query s) = s ∧
     completed w (trace_of (get_gemini_response w model prompt with_search query s)) = 0) ∨
  (∃ e full response,
     result_of (get_gemini_response w model prompt with_search query s)
       = Return ("An error occurred: " +:+ e) ∧
     session_of (get_gemini_response w model prompt with_search query s)
       = chat_history_append (user_turn prompt) s ∧
     completed w (trace_of (get_gemini_response w model prompt with_search query s)) = 0 ∧
     send_message w model (chat_history s) full = Answer response ∧
     text response = Failure e).
Proof.
  rewrite get_gemini_response_unfold, get_gemini_response_try_unfold.
  assert (Hask : ∀ full before, completed w before = 0 →
    (∃ reply,
       result_of (recover (ask w model prompt full before s)) = Return reply ∧
       session_of (recover (ask w model prompt full before s))
         = chat_history_append (model_turn reply) (chat_history_append (user_turn prompt) s) ∧
       completed w (trace_of (recover (ask w model prompt full before s))) = 1) ∨
    (∃ e,
       result_of (recover (ask w model prompt full before s))
         = Return ("An error occurred: " +:+ e) ∧
       session_of (recover (ask w model prompt full before s)) = s ∧
       completed w (trace_of (recover (ask w model prompt full before s))) = 0) ∨
    (∃ e full' response,
       result_of (recover (ask w model prompt full before s))
         = Return ("An error occurred: " +:+ e) ∧
       session_of (recover (ask w model prompt full before s))
         = chat_history_append (user_turn prompt) s ∧
       completed w (trace_of (recover (ask w model prompt full before s))) = 0 ∧
       send_message w model (chat_history s) full' = Answer response ∧
       text response = Failure e)).
  { intros full before Hb. unfold recover, ask.
    destruct (send_message w model (chat_history s) full) as [r|msg] eqn:E;
      [destruct (text r) as [reply|msg] eqn:Et|].
    - left. eexists. split_and!; [reflexivity..|].
      unfold trace_of; cbn [snd]. rewrite completed_app, Hb.
      unfold completed; cbn. by rewrite E, Et.
    - right; right. exists msg, full, r. split_and!; [reflexivity..| |done|done].
      unfold trace_of; cbn [snd]. rewrite completed_app, Hb.
      unfold completed; cbn. by rewrite E, Et.
    - right; left. eexists. split_and!; [reflexivity..|].
      unfold trace_of; cbn [snd]. rewrite completed_app, Hb.
      unfold completed; cbn. by rewrite E. }
  destruct (search_query with_search query) as [q|]; cbv zeta.
  - destruct (format_search_results _) as [block|e].
    + apply Hask. reflexivity.
    + right; left. eexists. split_and!; reflexivity.
  - apply Hask. reflexivity.
Qed.

Lemma asked_pair ms p out :
  asked (ms ++ [user_message p; assistant_message out]) = asked ms ++ [p].
Proof. unfold asked. by rewrite filter_app, fmap_app. Qed.

Lemma submitted_snoc uis ui :
  submitted (uis ++ [ui]) = (if clear_button ui then [] else submitted uis) ++ question ui.
Proof. unfold submitted. by rewrite foldl_app. Qed.

Lemma prepared_inv secrets ui st qs :
  store_inv st qs →
  session_inv (prepared ui (initialize_session_state secrets st.1))
              (if clear_button ui then 0 else st.2)
              (if clear_button ui then [] else qs).
Proof.
  destruct st as [[s|] n]; unfold store_inv; cbn [fst snd initialize_session_state].
  - intros (ms & Hm & Ha & Hl & Hq). unfold prepared.
    destruct (negb _), (clear_button ui); cbn [messages set_chat_history set_messages set_search_mode];
      rewrite ?bool_decide_eq_true_2 by done;
      rewrite ?Hm; rewrite ?bool_decide_eq_false_2 by done.
    1,3: exists []; split_and!; [done | constructor | done | done].
    all: exists ms; cbn [messages chat_history set_search_mode]; done.
  - intros [-> ->]. unfold prepared.
    destruct (negb _), (clear_button ui);
      cbn [messages set_chat_history set_messages set_search_mode];
      rewrite bool_decide_eq_true_2 by done;
      exists []; (split_and!; [done | constructor | done | done]).
Qed.

Lemma main_step w secrets ui st qs :
  readable w →
  store_inv st qs →
  store_inv (Some (session_of (main w secrets ui st.1)),
             (if clear_button ui then 0 else st.2) + completed w (trace_of (main w secrets ui st.1)))
            ((if clear_button ui then [] else qs) ++ question ui).
Proof.
  intros Hw Hst. apply (prepared_inv secrets ui) in Hst.
  unfold store_inv, question. cbn [fst snd]. rewrite main_unfold. cbv zeta.
  set (s := prepared ui _) in *. set (n := if clear_button ui then 0 else st.2) in *.
  set (qs' := if clear_button ui then [] else qs) in *.
  assert (Hidle : session_inv s (n + 0) (qs' ++ [])) by by rewrite Nat.add_0_r, app_nil_r.
  destruct (chat_input ui) as [p|]; [|done].
  destruct (truthy p); [|done].
  set (model := generative_model _). set (s1 := messages_append _ s).
  destruct Hst as (ms & Hm & Ha & Hl & Hq).
  destruct (turn_cases w model p (search_mode s1)
              (if search_mode s1 then Some p else None) s1)
    as [(out & -> & Hs & Hn)|[(e & -> & Hs & Hn)|(e & full & response & _ & _ & _ & Hsend & Htext)]];
    unfold session_of, trace_of in *; cbn [fst snd]; rewrite ?Hs, ?Hn.
  - exists (ms ++ [user_message p; assistant_message out]). cbn. rewrite Hm. split_and!.
    + by rewrite <- !app_assoc.
    + rewrite <- app_assoc. by constructor.
    + rewrite !length_app. cbn. lia.
    + by rewrite asked_pair, Hq.
  - exists (ms ++ [user_message p; assistant_message ("An error occurred: " +:+ e)]).
    cbn. rewrite Hm. split_and!.
    + by rewrite <- !app_assoc.
    + by constructor.
    + lia.
    + by rewrite asked_pair, Hq.
  - apply Hw in Hsend. by rewrite Htext in Hsend.
Qed.

Lemma run_counting_inv secrets events :
  Forall (λ ev, readable ev.1) events →
  store_inv (run_counting secrets events) (submitted events.*2).
Proof.
  unfold run_counting. induction events as [|[w ui] events IH] using rev_ind.
  - by intros _.
  - intros [Hevs [Hw _]%Forall_cons]%Forall_app.
    rewrite foldl_app, fmap_app. change ([(w, ui)].*2) with [ui].
    rewrite submitted_snoc. cbn [foldl fst snd].
    apply main_step; [done | by apply IH].
Qed.

Lemma run_counting_run secrets events :
  (run_counting secrets events).1 = run secrets events None.
Proof.
  unfold run_counting, run. induction events as [|[w ui] events IH] using rev_ind; [done|].
  rewrite !foldl_app. cbn [foldl fst snd]. by rewrite IH.
Qed.

(** C2 (amended).  After any series of script runs, each with an LLM
    provider all of whose replies have a text that can be read, the display
    history is the greeting followed by (user, assistant) pairs whose
    questions are, in order, the questions submitted since the clear button
    was last pressed;
    the pairs of the completed exchanges, and only they, appear in the model
    context, as (user, model) pairs with the same texts and in the same
    order; the pair of a failed turn, which holds the error string, and the
    greeting appear in the display only; and the model context has exactly
    twice as many entries as exchanges were completed since the chat was last
    cleared. *)
Theorem histories_aligned secrets events s n :
  Forall (λ ev, readable ev.1) events →
  run_counting secrets events = (Some s, n) →
  run secrets events None = Some s ∧
  ∃ ms, messages s = greeting :: ms ∧
        aligned ms (chat_history s) ∧
        length (chat_history s) = 2 * n ∧
        asked ms = submitted events.*2.
Proof.
  intros Hw Hrun. split.
  - by rewrite <- run_counting_run, Hrun.
  - pose proof (run_counting_inv secrets events Hw) as Hinv.
    rewrite Hrun in Hinv. exact Hinv.
Qed.

(** ** Search failure *)




(** ** The formatter on well-typed results *)

Lemma lookup_with_key_eq k o (d : gmap string json) :
  with_key k o d !! k = match o with Some v => Some v | None => d !! k end.
Proof. destruct o; [apply lookup_insert_eq | done]. Qed.

Lemma lookup_with_key_ne k k' o (d : gmap string json) :
  k ≠ k' → with_key k o d !! k' = d !! k'.
Proof. intros Hne. destruct o; [by apply lookup_insert_ne | done]. Qed.

Lemma lookup_no_key k : (∅ : gmap string json) !! k = None.
Proof. apply lookup_empty. Qed.

Create Rewrite HintDb keys.
#[local] Hint Rewrite lookup_with_key_eq lookup_no_key : keys.
#[local] Hint Rewrite lookup_with_key_ne using done : keys.

Lemma get_of_field (d : gmap string json) k (o : option string) dflt :
  d !! k = JStr <$> o →
  py_get (JObj d) k dflt = Return (JStr (default dflt o)).
Proof. intros Hk. unfold py_get. rewrite Hk. by destruct o. Qed.

(** Whatever the provider sent, the loop runs over at most five items. *)
Lemma py_slice5_length v items : py_slice5 v = Return items → length items ≤ 5.
Proof.
  destruct v; try discriminate; intros [= <-].
  - rewrite length_fmap, length_take. lia.
  - rewrite length_take. lia.
Qed.

Lemma format_organic_encode es : ∀ i acc,
  format_organic i (encode_entry <$> es) acc = Return (acc +:+ numbered_entries i es).
Proof.
  induction es as [|e es IH]; intros i acc.
  - cbn. by rewrite append_nil_r.
  - cbn [fmap list_fmap format_organic numbered_entries]. unfold encode_entry.
    rewrite (get_of_field _ "title" (title e)), (get_of_field _ "link" (link e)),
      (get_of_field _ "snippet" (snippet e));
      [| autorewrite with keys; by destruct (snippet e)
       | autorewrite with keys; by destruct (link e)
       | autorewrite with keys; by destruct (title e) ].
    cbn [mbind outcome_bind]. rewrite IH.
    by rewrite append_assoc.
Qed.

Lemma get_answer_box a :
  py_get (encode_answer_box a) "title" "" = Return (JStr (default "" (ab_title a))) ∧
  py_get (encode_answer_box a) "answer" "" = Return (JStr (default "" (ab_answer a))) ∧
  py_get (encode_answer_box a) "snippet" "" = Return (JStr (default "" (ab_snippet a))).
Proof.
  unfold encode_answer_box. split_and!; apply get_of_field; autorewrite with keys.
  - by destruct (ab_title a).
  - by destruct (ab_answer a).
  - by destruct (ab_snippet a).
Qed.

Lemma get_knowledge_graph k :
  py_get (encode_knowledge_graph k) "title" "" = Return (JStr (default "" (kg_title k))) ∧
  py_get (encode_knowledge_graph k) "description" ""
    = Return (JStr (default "" (kg_description k))).
Proof.
  unfold encode_knowledge_graph. split_and!; apply get_of_field; autorewrite with keys.
  - by destruct (kg_title k).
  - by destruct (kg_description k).
Qed.

Lemma py_in_encode k r :
  py_in k (encode r) = Return (bool_decide (is_Some (encode_fields r !! k))).
Proof. reflexivity. Qed.

Lemma format_encode r :
  error r = None →
  format_search_results (encode r)
    = Return (header +:+ organic_section r +:+ answer_section r +:+ knowledge_section r).
Proof.
  intros Herr. unfold format_search_results, organic_section, answer_section, knowledge_section.
  rewrite !py_in_encode. unfold encode, py_getitem, encode_fields.
  autorewrite with keys. rewrite Herr.
  destruct (organicEntries r) as [es|], (answerBox r) as [a|], (knowledgeGraph r) as [k|];
    cbn [fmap option_fmap option_map bool_decide decide_rel is_Some_dec mbind outcome_bind
         mret outcome_ret default py_slice5 from_option id].
  all: rewrite <- ?fmap_take, ?format_organic_encode.
  all: cbn [mbind outcome_bind].
  all: try (destruct (get_answer_box a) as (-> & -> & ->)).
  all: try (destruct (get_knowledge_graph k) as (-> & ->)).
  all: cbn [mbind outcome_bind mret outcome_ret].
  all: unfold answer_box_block, knowledge_block, header; cbn [py_str numbered_entries take].
  all: rewrite ?append_assoc, ?append_nil_r; reflexivity.
Qed.

Lemma format_encode_error r e :
  error r = Some e →
  format_search_results (encode r) = Return ("Error performing search: " +:+ e).
Proof.
  intros Herr. unfold format_search_results.
  rewrite !py_in_encode. unfold encode, py_getitem, encode_fields.
  autorewrite with keys. rewrite Herr. reflexivity.
Qed.

Lemma truncate5_section r : organic_section (truncate5 r) = organic_section r.
Proof.
  unfold organic_section, truncate5. cbn [organicEntries].
  destruct (organicEntries r) as [es|]; cbn; [|done].
  by rewrite take_take.
Qed.

(** C6.  The formatted block of a search result numbers the first five
    organic entries of the result and no others: the entries shown are at
    most five, and a result with more than five entries is formatted exactly
    as the same result cut after its fifth entry. *)
Theorem at_most_five_entries r :
  ∃ shown,
    shown = take 5 (default [] (organicEntries r)) ∧
    length shown ≤ 5 ∧
    format_search_results (encode r)
      = Return (match error r with
                | Some e => "Error performing search: " +:+ e
                | None => header +:+ numbered_entries 1 shown +:+
                          answer_section r +:+ knowledge_section r
                end) ∧
    format_search_results (encode r) = format_search_results (encode (truncate5 r)).
Proof.
  eexists. split; [reflexivity|]. split; [rewrite length_take; lia|].
  destruct (error r) as [e|] eqn:Herr.
  - split; [by apply format_encode_error|].
    by rewrite !(format_encode_error _ e).
  - split; [by apply format_encode|].
    rewrite !format_encode by done.
    by rewrite truncate5_section.
Qed.

(** C7 (amended).  For a result without error the formatted block is the
    heading followed by the organic entries, then the answer box, then the
    knowledge graph.  A sub-field missing from an organic entry is printed as
    "No title", "No link" or "No description"; a sub-field missing from the
    answer box or from the knowledge graph is printed as the empty text, its
    line being kept. *)
Theorem sections_in_order r :
  error r = None →
  format_search_results (encode r)
    = Return (header +:+ organic_section r +:+ answer_section r +:+ knowledge_section r) ∧
  (∀ i, entry_block i {| title := None; link := None; snippet := None |}
        = pretty i +:+ ". No title" +:+ nl +:+
          "   URL: No link" +:+ nl +:+
          "   Description: No description" +:+ nl +:+ nl) ∧
  (answerBox r = Some {| ab_title := None; ab_answer := None; ab_snippet := None |} →
   answer_section r = "Featured Medical Answer: " +:+ nl +:+ nl +:+ nl +:+ nl) ∧
  (knowledgeGraph r = Some {| kg_title := None; kg_description := None |} →
   knowledge_section r = "Medical Knowledge: " +:+ nl +:+ nl +:+ nl).
Proof.
  intros Herr. split_and!.
  - by apply format_encode.
  - intros i. reflexivity.
  - intros Ha. unfold answer_section. by rewrite Ha.
  - intros Hk. unfold knowledge_section. by rewrite Hk.
Qed.

(** ** The prompts *)

Lemma contains_nl p x b : occurs "010" p = false →
  str_contains p (x +:+ nl +:+ b) = str_contains p x || str_contains p (nl +:+ b).
Proof. intros Hp. exact (contains_sep p "010" x b Hp). Qed.

Lemma plain_marker prompt :
  str_contains marker (plain_prompt medical_context prompt) = str_contains marker prompt.
Proof.
  unfold plain_prompt.
  repeat (rewrite inert_left by reflexivity).
  rewrite contains_nl by reflexivity.
  match goal with |- _ || ?b = _ => replace b with false by (vm_compute; reflexivity) end.
  apply orb_false_r.
Qed.

Lemma search_marker prompt block :
  str_contains marker (search_prompt medical_context prompt block)
    = str_contains marker prompt || str_contains marker block.
Proof.
  unfold search_prompt.
  repeat (rewrite inert_left by reflexivity).
  rewrite contains_nl by reflexivity. f_equal.
  repeat (rewrite inert_left by reflexivity).
  rewrite contains_nl by reflexivity.
  match goal with |- _ || ?b = _ => replace b with false by (vm_compute; reflexivity) end.
  apply orb_false_r.
Qed.

Lemma format_organic_acc items : ∀ i acc out,
  format_organic i items acc = Return out → ∃ rest, out = acc +:+ rest.
Proof.
  induction items as [|item items IH]; intros i acc out.
  - intros [= <-]. exists "". by rewrite append_nil_r.
  - cbn [format_organic].
    intros (t & _ & (l & _ & (sn & _ & (rest & ->)%IH)%bind_Return)%bind_Return)%bind_Return.
    eexists. by rewrite append_assoc.
Qed.

Lemma format_header results block :
  py_in "error" results = Return false →
  format_search_results results = Return block →
  ∃ rest, block = header +:+ rest.
Proof.
  intros Herr. unfold format_search_results. rewrite Herr. cbn [mbind outcome_bind].
  intros (ho & _ & (f1 & H1 & (ha & _ & (f2 & H2 & (hk & _ & (f3 & H3 & [= <-]
    )%bind_Return)%bind_Return)%bind_Return)%bind_Return)%bind_Return)%bind_Return.
  assert (∃ r1, f1 = header +:+ r1) as [r1 ->].
  { destruct ho.
    - apply bind_Return in H1 as (o & _ & (items & _ & H1)%bind_Return).
      by apply format_organic_acc in H1.
    - injection H1 as <-. exists "". by rewrite append_nil_r. }
  assert (∃ r2, f2 = header +:+ r2) as [r2 ->].
  { destruct ha.
    - apply bind_Return in H2 as (a & _ & (t & _ & (an & _ & (sn & _ & [= <-]
        )%bind_Return)%bind_Return)%bind_Return).
      eexists. by rewrite append_assoc.
    - injection H2 as <-. eauto. }
  destruct hk.
  - apply bind_Return in H3 as (k & _ & (t & _ & (d & _ & [= <-]
      )%bind_Return)%bind_Return).
    eexists. by rewrite append_assoc.
  - injection H3 as <-. eauto.
Qed.

Lemma header_marker rest : str_contains marker (header +:+ rest) = true.
Proof. exact (contains_here marker (":" +:+ nl +:+ nl +:+ rest)). Qed.

(** C5 (amended).  The prompt of the branch without search contains
    "Medical Search Results" exactly when the user's query does.  The prompt
    of the search branch contains it exactly when the query or the search
    block does; the block does whenever the formatter was given a result
    without error, and then so does the prompt; with the error line of a
    failed search as block, the prompt contains it exactly when the query or
    the text of the failure does. *)
Theorem marker_in_prompts prompt results block :
  py_in "error" results = Return false →
  format_search_results results = Return block →
  str_contains marker (plain_prompt medical_context prompt) = str_contains marker prompt ∧
  (∀ context, str_contains marker (search_prompt medical_context prompt context)
              = str_contains marker prompt || str_contains marker context) ∧
  str_contains marker (search_prompt medical_context prompt block) = true ∧
  (∀ failure,
     str_contains marker
       (search_prompt medical_context prompt ("Error performing search: " +:+ failure))
       = str_contains marker prompt || str_contains marker failure).
Proof.
  intros Herr Hfmt. split_and!.
  - apply plain_marker.
  - apply search_marker.
  - rewrite search_marker.
    destruct (format_header _ _ Herr Hfmt) as [rest ->].
    by rewrite header_marker, orb_true_r.
  - intros failure. rewrite search_marker. f_equal.
Qed.

Lemma prefix_both a p x :
  String.prefix p x = true → String.prefix (a +:+ p) (a +:+ x) = true.
Proof.
  intros Hp. induction a as [|c a IH]; [done|].
  by rewrite !append_cons, prefix_cons, Ascii.eqb_refl.
Qed.

Lemma plain_starts prompt :
  String.prefix preamble (plain_prompt medical_context prompt) = true.
Proof. unfold plain_prompt, preamble. do 2 apply prefix_both. apply prefix_append. Qed.

Lemma search_starts prompt block :
  String.prefix preamble (search_prompt medical_context prompt block) = true.
Proof. unfold search_prompt, preamble. do 2 apply prefix_both. apply prefix_append. Qed.

(** C8 (amended).  The policy preamble is a constant that lists seven
    numbered guidelines: the five on disclosing that the assistant is an AI,
    recommending professional consultation, staying evidence-based, avoiding
    definitive diagnoses and using plain language, and two more, on an
    empathetic tone and on the importance of seeking proper care.  Every
    prompt sent to the LLM provider starts with it. *)
Theorem preamble_constant w model prompt with_search query s :
  numbered_guidelines medical_context =
    [ "1. Always clarify that you're an AI and not a doctor";
      "2. Recommend consulting healthcare professionals for diagnosis and treatment";
      "3. Provide factual, evidence-based information";
      "4. Be empathetic and supportive in your tone";
      "5. Never make definitive diagnoses";
      "6. Emphasize the importance of seeking proper medical care";
      "7. Use clear, understandable language without excessive medical jargon" ] ∧
  Forall (λ c, sends_preamble c = true)
         (trace_of (get_gemini_response w model prompt with_search query s)).
Proof.
  split; [by vm_compute|].
  rewrite get_gemini_response_unfold, get_gemini_response_try_unfold. unfold recover.
  destruct (search_query with_search query) as [q|]; cbv zeta.
  - destruct (format_search_results _) as [block|e].
    + unfold ask. destruct (send_message _ _ _ _) as [[[?|?]]|?]; cbn;
        repeat constructor; apply search_starts.
    + cbn. by repeat constructor.
  - unfold ask. destruct (send_message _ _ _ _) as [[[?|?]]|?]; cbn;
      repeat constructor; apply plain_starts.
Qed.

End Properties.

(** * Further properties of the program *)

Section More.
Context `{PyRuntime}.

(** ** The search client *)

(** X1.  [search_web] never raises and never touches the session store.  It
    issues exactly one request: a POST to the search URL that carries the
    session's search key, the query followed by " medical information" and
    the result count 5.  An answered request gives back the provider's
    document as it is; a failed one gives the dict that holds the failure
    message under "error" and nothing else. *)
Theorem search_web_one_request w query s :
  ∃ headers payload doc,
    search_web w query s = (Return doc, s, [HttpPost search_url headers (JObj payload)]) ∧
    headers !! "X-API-KEY" = Some (serper_api_key s) ∧
    headers !! "Content-Type" = Some "application/json" ∧
    payload !! "q" = Some (JStr (query +:+ " medical information")) ∧
    payload !! "num" = Some (JInt 5) ∧
    doc = match requests_post w search_url headers (JObj payload) with
          | Answer v => v
          | Failure msg => JObj {[ "error" := JStr msg ]}
          end.
Proof.
  eexists (search_headers s), _, _.
  split; [apply search_web_unfold|].
  split_and!; reflexivity.
Qed.

(** ** The formatter on arbitrary documents *)

(** X2.  A dict with an "error" key is formatted as the error line alone,
    whatever else it holds. *)
Theorem error_key_wins (d : gmap string json) v :
  d !! "error" = Some v →
  format_search_results (JObj d) = Return ("Error performing search: " +:+ py_str v).
Proof.
  intros Hd. unfold format_search_results, py_in, py_getitem.
  rewrite Hd. reflexivity.
Qed.

(** X3.  A dict with none of the keys "error", "organic", "answerBox" and
    "knowledgeGraph" is formatted as the bare heading. *)
Theorem unknown_keys_give_heading (d : gmap string json) :
  Forall (λ k, d !! k = None) known_keys →
  format_search_results (JObj d) = Return header.
Proof.
  unfold known_keys. rewrite !Forall_cons. intros (He & Ho & Ha & Hk & _).
  unfold format_search_results, py_in. rewrite He, Ho, Ha, Hk. reflexivity.
Qed.

(** X4.  A document that is not a dict never yields search results.  On
    [null], a boolean or a number the formatter raises at its first test.  On
    an array or a string it reads the four keys as elements or as substrings:
    if one of them occurs it raises at the lookup that follows, otherwise it
    returns the bare heading. *)
Theorem non_dict_document v :
  is_obj v = false →
  format_search_results v
    = if is_scalar v then Raise (PyError op_contains v)
      else if existsb (λ k, key_occurs k v) known_keys then Raise (PyError op_getitem v)
      else Return header.
Proof.
  intros Ho. destruct v as [| | | |s|l|d]; try done.
  - unfold format_search_results, py_in, known_keys. cbn [is_scalar existsb key_occurs].
    destruct (str_contains "error" s); [done|].
    destruct (str_contains "organic" s); [done|].
    destruct (str_contains "answerBox" s); [done|].
    destruct (str_contains "knowledgeGraph" s); done.
  - unfold format_search_results, py_in, known_keys. cbn [is_scalar existsb key_occurs].
    destruct (existsb (is_str "error") l); [done|].
    destruct (existsb (is_str "organic") l); [done|].
    destruct (existsb (is_str "answerBox") l); [done|].
    destruct (existsb (is_str "knowledgeGraph") l); done.
Qed.

(** X5.  Organic entries after the fifth never influence the outcome of the
    formatter, well-formed or not: a dict is formatted as the same dict with
    its "organic" list cut after the fifth item. *)
Theorem later_entries_ignored (d : gmap string json) l :
  format_search_results (JObj (<["organic" := JArr l]> d))
    = format_search_results (JObj (<["organic" := JArr (take 5 l)]> d)).
Proof.
  unfold format_search_results, py_in, py_getitem.
  rewrite !lookup_insert_eq.
  rewrite !(lookup_insert_ne _ "organic" "error"), !(lookup_insert_ne _ "organic" "answerBox"),
    !(lookup_insert_ne _ "organic" "knowledgeGraph") by done.
  destruct (d !! "error"), (d !! "answerBox"), (d !! "knowledgeGraph");
    cbn [bool_decide decide_rel is_Some_dec mbind outcome_bind py_slice5];
    by rewrite ?take_take.
Qed.

Lemma format_organic_bad items : ∀ i acc,
  existsb (λ x, negb (is_obj x)) items = true →
  ∃ bad, bad ∈ items ∧ is_obj bad = false ∧
         format_organic i items acc = Raise (PyError op_get bad).
Proof.
  induction items as [|item items IH]; intros i acc; [discriminate|].
  cbn [existsb format_organic].
  destruct item as [| | | | | |e]; try (intros _; eexists; split_and!; [left|done..]).
  cbn [is_obj negb orb]. intros Hbad.
  cbn [py_get mbind outcome_bind].
  destruct (IH (S i) (acc +:+ organic_entry i (default (JStr "No title") (e !! "title"))
                                (default (JStr "No link") (e !! "link"))
                                (default (JStr "No description") (e !! "snippet"))) Hbad)
    as (bad & Hin & Hobj & Hfmt).
  exists bad. split_and!; [by right | done | done].
Qed.

(** X6.  If one of the first five items of the "organic" list is not an
    object, the formatter raises on the first such item (a dict without
    "error" is meant). *)
Theorem malformed_entry_raises (d : gmap string json) l :
  d !! "error" = None →
  d !! "organic" = Some (JArr l) →
  existsb (λ x, negb (is_obj x)) (take 5 l) = true →
  ∃ bad, bad ∈ take 5 l ∧ is_obj bad = false ∧
         format_search_results (JObj d) = Raise (PyError op_get bad).
Proof.
  intros He Ho Hbad. unfold format_search_results, py_in, py_getitem.
  rewrite He, Ho. cbn [bool_decide decide_rel is_Some_dec mbind outcome_bind py_slice5].
  destruct (format_organic_bad (take 5 l) 1 ("Medical Search Results:" +:+ nl +:+ nl) Hbad)
    as (bad & Hin & Hobj & ->).
  by exists bad.
Qed.

Lemma format_error_line results out :
  py_in "error" results = Return true →
  format_search_results results = Return out →
  ∃ text, out = "Error performing search: " +:+ text.
Proof.
  intros Herr. unfold format_search_results. rewrite Herr. cbn [mbind outcome_bind].
  intros (e & _ & [= <-])%bind_Return. eauto.
Qed.

(** X7.  Whatever the document, a block that the formatter returns starts
    with one of two fixed texts: the error label or the heading. *)
Theorem block_starts_with_label results out :
  format_search_results results = Return out →
  String.prefix "Error performing search: " out = true ∨
  String.prefix header out = true.
Proof.
  intros Hfmt.
  destruct (py_in "error" results) as [[|]|e] eqn:Herr.
  - left. destruct (format_error_line _ _ Herr Hfmt) as [text ->]. apply prefix_append.
  - right. destruct (format_header _ _ Herr Hfmt) as [rest ->]. apply prefix_append.
  - unfold format_search_results in Hfmt. by rewrite Herr in Hfmt.
Qed.

(** ** One turn *)




(** X9.  When the formatter raises on the search document, the turn ends
    without any request to the LLM provider: its only request is the search,
    and its result is the error string. *)
Theorem unreadable_document_stops_turn w model prompt with_search query s q e :
  search_query with_search query = Some q →
  format_search_results (search_document w q s) = Raise e →
  get_gemini_response w model prompt with_search query s
    = (Return ("An error occurred: " +:+ str_exn e), s,
       [HttpPost search_url (search_headers s) (search_payload q)]).
Proof.
  intros Hq Hfmt.
  rewrite get_gemini_response_unfold, get_gemini_response_try_unfold, Hq. cbv zeta.
  by rewrite Hfmt.
Qed.

(** X10.  A turn changes nothing in the session store but the model context:
    the display history, the search mode and the two keys are as before. *)
Theorem turn_touches_only_context w model prompt with_search query s :
  messages (session_of (get_gemini_response w model prompt with_search query s)) = messages s ∧
  search_mode (session_of (get_gemini_response w model prompt with_search query s))
    = search_mode s ∧
  gemini_api_key (session_of (get_gemini_response w model prompt with_search query s))
    = gemini_api_key s ∧
  serper_api_key (session_of (get_gemini_response w model prompt with_search query s))
    = serper_api_key s.
Proof.
  destruct (turn_cases w model prompt with_search query s)
    as [(out & _ & -> & _)|[(e & _ & -> & _)|(e & full & response & _ & -> & _)]]; done.
Qed.


(** X12.  When the provider answers the search with a well-typed result
    without error, the turn asks the LLM provider with the search template
    filled with the user's prompt and the formatted sections of that
    result. *)
Theorem search_result_reaches_llm w model prompt with_search query s q r :
  search_query with_search query = Some q →
  requests_post w search_url (search_headers s) (search_payload q) = Answer (encode r) →
  error r = None →
  trace_of (get_gemini_response w model prompt with_search query s)
    = [ HttpPost search_url (search_headers s) (search_payload q);
        SendMessage model (chat_history s)
          (search_prompt medical_context prompt
             (header +:+ organic_section r +:+ answer_section r +:+ knowledge_section r)) ].
Proof.
  intros Hq Hpost Herr.
  rewrite get_gemini_response_unfold, get_gemini_response_try_unfold, Hq. cbv zeta.
  unfold search_document. rewrite Hpost, (format_encode r Herr).
  unfold recover, ask. by destruct (send_message _ _ _ _) as [[[?|?]]|?].
Qed.

(** ** One run of the script *)

Lemma set_search_mode_same s : set_search_mode (search_mode s) s = s.
Proof. by destruct s. Qed.

Lemma prepared_mode ui s0 : search_mode (prepared ui s0) = search_toggle ui.
Proof.
  unfold prepared.
  destruct (negb (eqb (search_toggle ui) (search_mode s0))) eqn:E.
  - by destruct (clear_button ui), (bool_decide _).
  - apply negb_false_iff, eqb_prop in E.
    by destruct (clear_button ui), (bool_decide _).
Qed.

Lemma prepared_keys ui s0 :
  gemini_api_key (prepared ui s0) = gemini_api_key s0 ∧
  serper_api_key (prepared ui s0) = serper_api_key s0.
Proof.
  unfold prepared. by destruct (negb _), (clear_button ui), (bool_decide _).
Qed.

Lemma prepared_context ui s0 :
  chat_history (prepared ui s0) = if clear_button ui then [] else chat_history s0.
Proof.
  unfold prepared. by destruct (negb _), (clear_button ui), (bool_decide _).
Qed.

Lemma prepared_display ui s0 :
  clear_button ui = false →
  messages s0 `prefix_of` messages (prepared ui s0).
Proof.
  intros Hc. unfold prepared. rewrite Hc.
  destruct (negb _); cbn [messages set_search_mode];
    case_bool_decide as Hm; cbn [messages messages_append set_messages set_search_mode];
    try done; by apply prefix_app_r.
Qed.

(** The two outcomes of a run: without a question the script stops after the
    introduction; with one it runs a turn and shows its result. *)
Lemma main_cases w secrets ui store :
  (truthy_opt (chat_input ui) = false ∧
   main w secrets ui store
     = (Return (), prepared ui (initialize_session_state secrets store), [])) ∨
  (∃ p out,
     chat_input ui = Some p ∧ truthy p = true ∧
     result_of (get_gemini_response w
                  (generative_model (gemini_api_key (initialize_session_state secrets store)))
                  p (search_toggle ui) (if search_toggle ui then Some p else None)
                  (messages_append (user_message p)
                     (prepared ui (initialize_session_state secrets store)))) = Return out ∧
     main w secrets ui store
       = (Return (),
          messages_append (assistant_message out)
            (session_of (get_gemini_response w
               (generative_model (gemini_api_key (initialize_session_state secrets store)))
               p (search_toggle ui) (if search_toggle ui then Some p else None)
               (messages_append (user_message p)
                  (prepared ui (initialize_session_state secrets store))))),
          trace_of (get_gemini_response w
               (generative_model (gemini_api_key (initialize_session_state secrets store)))
               p (search_toggle ui) (if search_toggle ui then Some p else None)
               (messages_append (user_message p)
                  (prepared ui (initialize_session_state secrets store)))))).
Proof.
  rewrite main_unfold. cbv zeta.
  set (s0 := initialize_session_state secrets store).
  destruct (chat_input ui) as [p|]; [|by left].
  destruct (truthy p) eqn:Hp; [|by left].
  right. exists p.
  change (search_mode (messages_append (user_message p) (prepared ui s0)))
    with (search_mode (prepared ui s0)).
  rewrite prepared_mode, (proj1 (prepared_keys ui s0)).
  destruct (get_gemini_response_returns w (generative_model (gemini_api_key s0)) p
              (search_toggle ui) (if search_toggle ui then Some p else None)
              (messages_append (user_message p) (prepared ui s0))) as [out Hout].
  exists out. rewrite Hout. done.
Qed.

(** X13.  After a run the stored search mode is the position of the toggle
    in that run, whatever the mode was before. *)
Theorem mode_follows_toggle w secrets ui store :
  search_mode (session_of (main w secrets ui store)) = search_toggle ui.
Proof.
  destruct (main_cases w secrets ui store) as [[_ ->]|(p & out & _ & _ & _ & ->)];
    unfold session_of at 1; cbn [fst snd].
  - apply prepared_mode.
  - cbn [search_mode messages_append set_messages].
    destruct (turn_cases w (generative_model
                (gemini_api_key (initialize_session_state secrets store))) p (search_toggle ui)
                (if search_toggle ui then Some p else None)
                (messages_append (user_message p)
                   (prepared ui (initialize_session_state secrets store))))
      as [(o & _ & -> & _)|[(e & _ & -> & _)|(e & full & response & _ & -> & _)]];
      cbn; apply prepared_mode.
Qed.

Lemma main_session w secrets ui store :
  ∃ shown stored,
    messages (session_of (main w secrets ui store))
      = messages (prepared ui (initialize_session_state secrets store)) ++ shown ∧
    chat_history (session_of (main w secrets ui store))
      = chat_history (prepared ui (initialize_session_state secrets store)) ++ stored ∧
    gemini_api_key (session_of (main w secrets ui store))
      = gemini_api_key (initialize_session_state secrets store) ∧
    serper_api_key (session_of (main w secrets ui store))
      = serper_api_key (initialize_session_state secrets store).
Proof.
  set (s0 := initialize_session_state secrets store).
  destruct (prepared_keys ui s0) as [Hg Hs].
  destruct (main_cases w secrets ui store) as [[_ ->]|(p & out & _ & _ & _ & ->)].
  - exists [], []. unfold session_of. cbn [fst snd]. by rewrite !app_nil_r.
  - fold s0.
    destruct (turn_cases w (generative_model (gemini_api_key s0)) p (search_toggle ui)
                (if search_toggle ui then Some p else None)
                (messages_append (user_message p) (prepared ui s0)))
      as [(o & _ & Hsess & _)|[(e & _ & Hsess & _)|(e & full & response & _ & Hsess & _)]];
      unfold session_of in *; cbn [fst snd]; rewrite Hsess; cbn.
    + eexists [_; _], [_; _]. by rewrite <- !app_assoc.
    + eexists [_; _], []. by rewrite <- !app_assoc, app_nil_r.
    + eexists [_; _], [_]. by rewrite <- !app_assoc.
Qed.

(** X14.  Without the clear button, a run only appends: the display history
    and the model context from before the run are prefixes of those after
    it. *)
Theorem histories_only_grow w secrets ui s :
  clear_button ui = false →
  messages s `prefix_of` messages (session_of (main w secrets ui (Some s))) ∧
  chat_history s `prefix_of` chat_history (session_of (main w secrets ui (Some s))).
Proof.
  intros Hc.
  destruct (main_session w secrets ui (Some s)) as (shown & stored & -> & -> & _).
  cbn [initialize_session_state]. split.
  - etrans; [by apply prepared_display | by apply prefix_app_r].
  - rewrite prepared_context, Hc. by apply prefix_app_r.
Qed.

(** X15.  A run without a question and without the clear button, in a session
    that already shows messages, changes nothing but the search mode and
    issues no request. *)
Theorem idle_run w secrets ui s m ms :
  truthy_opt (chat_input ui) = false →
  clear_button ui = false →
  messages s = m :: ms →
  main w secrets ui (Some s) = (Return (), set_search_mode (search_toggle ui) s, []).
Proof.
  intros Hq Hc Hm.
  destruct (main_cases w secrets ui (Some s)) as [[_ ->]|(p & out & Hp & Ht & _)].
  - cbn [initialize_session_state]. unfold prepared. rewrite Hc.
    destruct (negb (eqb (search_toggle ui) (search_mode s))) eqn:E.
    + cbn [messages set_search_mode]. rewrite Hm. by rewrite bool_decide_eq_false_2.
    + apply negb_false_iff, eqb_prop in E. rewrite E, set_search_mode_same, Hm.
      by rewrite bool_decide_eq_false_2.
  - rewrite Hp in Hq. cbn in Hq. congruence.
Qed.

Lemma session_keys_step w secrets ui store :
  gemini_api_key (session_of (main w secrets ui store))
    = gemini_api_key (initialize_session_state secrets store) ∧
  serper_api_key (session_of (main w secrets ui store))
    = serper_api_key (initialize_session_state secrets store).
Proof. by destruct (main_session w secrets ui store) as (? & ? & _ & _ & -> & ->). Qed.

Lemma run_secrets_keys events : ∀ s0 s,
  run_secrets events (Some s0) = Some s →
  gemini_api_key s = gemini_api_key s0 ∧ serper_api_key s = serper_api_key s0.
Proof.
  unfold run_secrets. induction events as [|[[w secrets] ui] events IH]; intros s0 s.
  - by intros [= <-].
  - cbn [foldl fst snd]. intros [-> ->]%IH.
    apply (session_keys_step w secrets ui (Some s0)).
Qed.

(** X16.  The two keys are read from the secrets once, in the first run of a
    session: after any series of further runs, whatever the secrets hold by
    then, the session still holds the keys that the first run found. *)
Theorem keys_are_kept w secrets ui events s :
  run_secrets ((w, secrets, ui) :: events) None = Some s →
  gemini_api_key s = GEMINI_API_KEY secrets ∧
  serper_api_key s = SERPER_API_KEY secrets.
Proof.
  unfold run_secrets. cbn [foldl fst snd]. intros [-> ->]%run_secrets_keys.
  apply (session_keys_step w secrets ui None).
Qed.

Lemma turn_send w model prompt with_search query s m h t :
  SendMessage m h t ∈ trace_of (get_gemini_response w model prompt with_search query s) →
  m = model ∧ h = chat_history s.
Proof.
  rewrite get_gemini_response_unfold, get_gemini_response_try_unfold. unfold recover.
  destruct (search_query with_search query) as [q|]; cbv zeta.
  - destruct (format_search_results _) as [block|e].
    + unfold ask. destruct (send_message _ _ _ _) as [[[?|?]]|?]; cbn;
        intros [?|[[= -> -> ->]|?%elem_of_nil]%elem_of_cons]%elem_of_cons; done.
    + cbn. intros [?|?%elem_of_nil]%elem_of_cons; done.
  - unfold ask. destruct (send_message _ _ _ _) as [[[?|?]]|?]; cbn;
      intros [[= -> -> ->]|?%elem_of_nil]%elem_of_cons; done.
Qed.

(** X17.  The LLM request of a run carries the model that [configure_gemini]
    builds from the session's key, and as history the model context stored
    before the run, or the empty context when the clear button was pressed in
    that run. *)
Theorem run_hands_over_context w secrets ui store m h t :
  SendMessage m h t ∈ trace_of (main w secrets ui store) →
  m = generative_model (gemini_api_key (initialize_session_state secrets store)) ∧
  h = if clear_button ui then [] else chat_history (initialize_session_state secrets store).
Proof.
  destruct (main_cases w secrets ui store) as [[_ ->]|(p & out & _ & _ & _ & ->)];
    unfold trace_of at 1; cbn [fst snd].
  - by intros ?%elem_of_nil.
  - intros [-> ->]%turn_send. split; [done|].
    cbn [chat_history messages_append set_messages]. apply prepared_context.
Qed.

Lemma turn_post w model prompt with_search query s u h d :
  HttpPost u h d ∈ trace_of (get_gemini_response w model prompt with_search query s) →
  ∃ q, search_query with_search query = Some q ∧
       u = search_url ∧ h = search_headers s ∧ d = search_payload q.
Proof.
  rewrite get_gemini_response_unfold, get_gemini_response_try_unfold. unfold recover.
  destruct (search_query with_search query) as [q|]; cbv zeta.
  - destruct (format_search_results _) as [block|e].
    + unfold ask. destruct (send_message _ _ _ _) as [[[?|?]]|?]; cbn;
        intros [[= -> -> ->]|[?|?%elem_of_nil]%elem_of_cons]%elem_of_cons; try done;
        by exists q.
    + cbn. intros [[= -> -> ->]|?%elem_of_nil]%elem_of_cons; [|done]. by exists q.
  - unfold ask. destruct (send_message _ _ _ _) as [[[?|?]]|?]; cbn;
      intros [?|?%elem_of_nil]%elem_of_cons; done.
Qed.

Lemma turn_post_first w model prompt with_search query s q :
  search_query with_search query = Some q →
  trace_of (get_gemini_response w model prompt with_search query s) !! 0
    = Some (HttpPost search_url (search_headers s) (search_payload q)).
Proof.
  intros Hq.
  rewrite get_gemini_response_unfold, get_gemini_response_try_unfold, Hq. unfold recover.
  cbv zeta. destruct (format_search_results _) as [block|e]; [|done].
  unfold ask. by destruct (send_message _ _ _ _) as [[[?|?]]|?].
Qed.

(** X18.  A run searches only for what the user typed in that run, and only
    with the toggle on: any search request in its trace goes to the search
    URL with the session's search key and the payload built from the
    submitted question. *)
Theorem run_searches_only_on_demand w secrets ui store u h d :
  HttpPost u h d ∈ trace_of (main w secrets ui store) →
  search_toggle ui = true ∧
  ∃ p, chat_input ui = Some p ∧ truthy p = true ∧
       u = search_url ∧
       h !! "X-API-KEY" = Some (serper_api_key (initialize_session_state secrets store)) ∧
       d = search_payload p.
Proof.
  destruct (main_cases w secrets ui store) as [[_ ->]|(p & out & Hp & Ht & _ & ->)];
    unfold trace_of at 1; cbn [fst snd].
  - by intros ?%elem_of_nil.
  - intros (q & Hq & -> & -> & ->)%turn_post.
    destruct (search_toggle ui); [|done]. cbn in Hq. rewrite Ht in Hq. injection Hq as <-.
    split; [done|]. exists p. split_and!; try done.
    unfold search_headers. cbn [serper_api_key messages_append set_messages].
    rewrite (proj2 (prepared_keys ui _)). reflexivity.
Qed.

(** X19.  With the toggle on, a run with a non-empty question starts with the
    search for that question, also when the stored search mode was off
    before the run. *)
Theorem run_searches_when_enabled w secrets ui store p :
  search_toggle ui = true →
  chat_input ui = Some p →
  truthy p = true →
  ∃ h, trace_of (main w secrets ui store) !! 0 = Some (HttpPost search_url h (search_payload p)) ∧
       h !! "X-API-KEY" = Some (serper_api_key (initialize_session_state secrets store)).
Proof.
  intros Hs Hp Ht.
  destruct (main_cases w secrets ui store) as [[Hq _]|(p' & out & Hp' & _ & _ & ->)].
  - rewrite Hp in Hq. cbn in Hq. congruence.
  - rewrite Hp in Hp'. injection Hp' as <-.
    unfold trace_of at 1; cbn [fst snd]. rewrite Hs.
    eexists. split.
    + apply turn_post_first. cbn. by rewrite Ht.
    + unfold search_headers. cbn [serper_api_key messages_append set_messages].
      rewrite (proj2 (prepared_keys ui _)). reflexivity.
Qed.

(** X20.  The first run of a fresh session without a question shows the
    greeting alone, with an empty model context, the mode of the toggle and
    the keys of the secrets, and issues no request. *)
Theorem fresh_session_start w secrets ui :
  truthy_opt (chat_input ui) = false →
  main w secrets ui None
    = (Return (),
       {| messages := [greeting]; chat_history := [];
          search_mode := search_toggle ui;
          gemini_api_key := GEMINI_API_KEY secrets;
          serper_api_key := SERPER_API_KEY secrets |},
       []).
Proof.
  intros Hq.
  destruct (main_cases w secrets ui None) as [[_ ->]|(p & out & Hp & Ht & _)].
  - cbn [initialize_session_state]. unfold prepared.
    by destruct (search_toggle ui), (clear_button ui).
  - rewrite Hp in Hq. cbn in Hq. congruence.
Qed.

(** X21.  The placeholder of an organic entry stands for an absent key only:
    a title that is present with the value [null] is printed as "None". *)
Theorem null_title_prints_None (e : gmap string json) i acc :
  e !! "title" = Some JNull →
  format_organic i [JObj e] acc
    = Return (acc +:+ pretty i +:+ ". None" +:+ nl +:+
              "   URL: " +:+ py_str (default (JStr "No link") (e !! "link")) +:+ nl +:+
              "   Description: " +:+
              py_str (default (JStr "No description") (e !! "snippet")) +:+ nl +:+ nl).
Proof.
  intros He. cbn [format_organic py_get mbind outcome_bind]. by rewrite He.
Qed.

End More.

(** * The theorems at work

    Each statement below is evaluated on the sample data, with
    [sample_runtime] as the interpreter. *)

Section Examples.
#[local] Existing Instance sample_runtime.

(** C1: one completed turn, asked without search in a fresh session. *)
Lemma completed_turn_extends_history_witness :
  ∃ full before,
    trace_of (get_gemini_response_try world_up sample_model "What causes a migraine?"
                false None sample_session)
      = before ++ [SendMessage sample_model (chat_history sample_session) full] ∧
    (∃ response,
       send_message world_up sample_model (chat_history sample_session) full
         = Answer response ∧
       text response = Answer "Rest in a dark room.") ∧
    chat_history (session_of (get_gemini_response_try world_up sample_model
                                "What causes a migraine?" false None sample_session))
      = chat_history sample_session ++
        [user_turn "What causes a migraine?"; model_turn "Rest in a dark room."] ∧
    str_contains "What causes a migraine?" full = true ∧
    String.length "What causes a migraine?" < String.length full.
Proof.
  apply (completed_turn_extends_history world_up sample_model "What causes a migraine?"
           false None sample_session "Rest in a dark room.").
  reflexivity.
Defined.

(** C1: the user entry that a completed turn stores is the query, while the
    text sent to the provider on that turn is the full prompt, a different
    string. *)
Lemma stored_entry_is_not_the_text_sent :
  get_gemini_response_try world_up sample_model "What causes a migraine?" false None
    sample_session
  = (Return "Rest in a dark room.",
     set_chat_history [ {| mrole := "user"; parts := ["What causes a migraine?"] |};
                        {| mrole := "model"; parts := ["Rest in a dark room."] |} ]
       sample_session,
     [SendMessage sample_model []
        (plain_prompt medical_context "What causes a migraine?")]) ∧
  String.eqb "What causes a migraine?"
             (plain_prompt medical_context "What causes a migraine?") = false.
Proof. split; reflexivity. Qed.

(** C2: a failed turn, then a completed one. *)
Lemma histories_aligned_witness :
  run_counting sample_secrets sample_events = (Some sample_final, 1) ∧
  submitted sample_events.*2 = ["What causes a migraine?"; "And how is it treated?"] ∧
  run sample_secrets sample_events None = Some sample_final ∧
  ∃ ms, messages sample_final = greeting :: ms ∧
        aligned ms (chat_history sample_final) ∧
        length (chat_history sample_final) = 2 * 1 ∧
        asked ms = submitted sample_events.*2.
Proof.
  split; [reflexivity|]. split; [reflexivity|].
  apply (histories_aligned sample_secrets sample_events sample_final 1); [|reflexivity].
  repeat constructor; intros model history full response; cbn; by intros [= <-].
Defined.

(** C2: after a single failed turn the display history holds a (user,
    assistant) pair behind the greeting, and the model context holds none;
    and after a turn whose reply had no readable text, the model context
    holds one entry, the user's. *)
Lemma failed_turn_pair_has_no_counterpart :
  run sample_secrets [(world_down, submit false "What causes a migraine?")] None
  = Some {| messages := [ greeting;
                          user_message "What causes a migraine?";
                          assistant_message "An error occurred: quota exceeded" ];
            chat_history := [];
            search_mode := false;
            gemini_api_key := "gemini-key";
            serper_api_key := "serper-key" |} ∧
  display_pairs (default sample_session
     (run sample_secrets [(world_down, submit false "What causes a migraine?")] None)) = 1 ∧
  context_pairs (default sample_session
     (run sample_secrets [(world_down, submit false "What causes a migraine?")] None)) = 0 ∧
  chat_history (default sample_session
     (run sample_secrets [(world_unreadable, submit false "What causes a migraine?")] None))
    = [user_turn "What causes a migraine?"].
Proof. split_and!; reflexivity. Qed.

(** C3: the LLM provider is down, and the LLM provider answers with a reply
    whose text cannot be read. *)
Lemma llm_failure_history_witness :
  (result_of (get_gemini_response world_down sample_model "What causes a migraine?"
                false None sample_session)
     = Return "An error occurred: quota exceeded" ∧
   session_of (get_gemini_response world_down sample_model "What causes a migraine?"
                 false None sample_session) = sample_session) ∧
  (result_of (get_gemini_response world_unreadable sample_model "What causes a migraine?"
                false None sample_session)
     = Return "An error occurred: no valid part in the response" ∧
   chat_history (session_of (get_gemini_response world_unreadable sample_model
                               "What causes a migraine?" false None sample_session))
     = chat_history sample_session ++ [user_turn "What causes a migraine?"] ∧
   length (chat_history (session_of (get_gemini_response world_unreadable sample_model
                                       "What causes a migraine?" false None sample_session)))
     = S (length (chat_history sample_session))).
Proof.
  split.
  - assert (Hin : SendMessage sample_model []
                    (plain_prompt medical_context "What causes a migraine?")
                  ∈ trace_of (get_gemini_response world_down sample_model
                                "What causes a migraine?" false None sample_session)).
    { vm_compute. left. }
    destruct (llm_failure_history world_down sample_model "What causes a migraine?"
                false None sample_session _ _ _ Hin) as [Hdown _].
    destruct (Hdown "quota exceeded" eq_refl) as (Hout & _ & Hsession).
    split; [exact Hout | exact Hsession].
  - assert (Hin : SendMessage sample_model []
                    (plain_prompt medical_context "What causes a migraine?")
                  ∈ trace_of (get_gemini_response world_unreadable sample_model
                                "What causes a migraine?" false None sample_session)).
    { vm_compute. left. }
    destruct (llm_failure_history world_unreadable sample_model "What causes a migraine?"
                false None sample_session _ _ _ Hin) as [_ Hread].
    destruct (Hread {| text := Failure "no valid part in the response" |}
                "no valid part in the response" eq_refl eq_refl)
      as (Hout & _ & Hcontext & Hlength).
    split; [exact Hout|]. split; [exact Hcontext | exact Hlength].
Defined.



(** C5: a query without the marker, and the block of a result without error. *)
Lemma marker_in_prompts_witness :
  py_in "error" (encode sample_result) = Return false ∧
  str_contains marker (plain_prompt medical_context "What causes a migraine?")
    = str_contains marker "What causes a migraine?" ∧
  str_contains marker (plain_prompt medical_context "What causes a migraine?") = false ∧
  str_contains marker
    (search_prompt medical_context "What causes a migraine?"
       (header +:+ organic_section sample_result +:+ answer_section sample_result +:+
        knowledge_section sample_result)) = true ∧
  str_contains marker
    (search_prompt medical_context "What causes a migraine?"
       ("Error performing search: " +:+ "no Medical Search Results today"))
    = str_contains marker "What causes a migraine?"
      || str_contains marker "no Medical Search Results today" ∧
  str_contains marker "no Medical Search Results today" = true.
Proof.
  split; [reflexivity|].
  destruct (marker_in_prompts "What causes a migraine?" (encode sample_result)
              (header +:+ organic_section sample_result +:+ answer_section sample_result +:+
               knowledge_section sample_result) eq_refl eq_refl)
    as (Hplain & _ & Hsearch & Hline).
  split; [exact Hplain|]. split; [reflexivity|]. split; [exact Hsearch|].
  split; [exact (Hline "no Medical Search Results today") | reflexivity].
Defined.

(** C5: the prompt without search contains the marker when the query does,
    and the prompt with search lacks it when the query does not contain it and
    the search block is the error line of a search that failed with
    "connection timed out". *)
Lemma marker_follows_query_and_block :
  str_contains marker (plain_prompt medical_context "What are Medical Search Results?")
    = true ∧
  format_search_results (encode (error_only "connection timed out"))
    = Return "Error performing search: connection timed out" ∧
  str_contains marker
    (search_prompt medical_context "What causes a migraine?"
       "Error performing search: connection timed out") = false.
Proof. split_and!; reflexivity. Qed.

(** C7: a result with seven entries and a bare answer box. *)
Lemma sections_in_order_witness :
  error sample_result = None ∧
  format_search_results (encode sample_result)
    = Return (header +:+ organic_section sample_result +:+ answer_section sample_result +:+
              knowledge_section sample_result) ∧
  organic_section sample_result = numbered_entries 1 (replicate 5 mayo) ∧
  answer_section sample_result = "Featured Medical Answer: " +:+ nl +:+ nl +:+ nl +:+ nl.
Proof.
  split; [reflexivity|].
  destruct (sections_in_order sample_result eq_refl) as (Hfmt & _ & Hanswer & _).
  split; [exact Hfmt|]. split; [reflexivity|]. exact (Hanswer eq_refl).
Defined.

(** C7: an answer box without sub-fields is printed with nothing in their
    place, exactly as an answer box whose sub-fields are empty. *)
Lemma missing_answer_fields_print_nothing :
  format_search_results (encode bare_answer_box)
    = Return (header +:+ "Featured Medical Answer: " +:+ nl +:+ nl +:+ nl +:+ nl) ∧
  format_search_results (encode bare_answer_box)
    = format_search_results (encode empty_answer_box).
Proof. split; reflexivity. Qed.

(** C8: the preamble lists seven guidelines, not five. *)
Lemma preamble_has_seven_guidelines :
  length (numbered_guidelines medical_context) = 7 ∧
  (length (numbered_guidelines medical_context) =? 5) = false.
Proof. split; reflexivity. Qed.

(** C9: the clear button pressed in the session left by [sample_events]. *)
Lemma clear_resets_witness :
  clear_button press_clear = true ∧
  truthy_opt (chat_input press_clear) = false ∧
  messages (session_of (main world_up sample_secrets press_clear (Some sample_final)))
    = [greeting] ∧
  chat_history (session_of (main world_up sample_secrets press_clear (Some sample_final)))
    = [] ∧
  trace_of (main world_up sample_secrets press_clear (Some sample_final)) = [].
Proof.
  split; [reflexivity|]. split; [reflexivity|].
  exact (clear_resets world_up sample_secrets press_clear (Some sample_final) eq_refl eq_refl).
Defined.


End Examples.

(** * The further properties at work *)

Section MoreExamples.
#[local] Existing Instance sample_runtime.

(** X2: an error beside an ill-typed "organic". *)
Lemma error_key_wins_witness :
  error_beside_data !! "error" = Some (JStr "rate limit") ∧
  format_search_results (JObj error_beside_data)
    = Return "Error performing search: rate limit".
Proof.
  split; [reflexivity|].
  exact (error_key_wins error_beside_data (JStr "rate limit") eq_refl).
Defined.

(** X3: the body of a refused request. *)
Lemma unknown_keys_give_heading_witness :
  Forall (λ k, unauthorized_body !! k = None) known_keys ∧
  format_search_results (JObj unauthorized_body) = Return header.
Proof.
  assert (Hk : Forall (λ k, unauthorized_body !! k = None) known_keys)
    by (repeat constructor).
  split; [exact Hk|]. exact (unknown_keys_give_heading unauthorized_body Hk).
Defined.

(** X4: an array that holds the string "organic". *)
Lemma non_dict_document_witness :
  is_obj (JArr [JStr "organic"]) = false ∧
  format_search_results (JArr [JStr "organic"])
    = Raise (PyError op_getitem (JArr [JStr "organic"])).
Proof.
  split; [reflexivity|].
  exact (non_dict_document (JArr [JStr "organic"]) eq_refl).
Defined.

(** X6: a string among the organic items. *)
Lemma malformed_entry_raises_witness :
  stray_item !! "error" = None ∧
  stray_item !! "organic" = Some (JArr [JObj ∅; JStr "oops"; JObj ∅]) ∧
  existsb (λ x, negb (is_obj x)) (take 5 [JObj ∅; JStr "oops"; JObj ∅]) = true ∧
  ∃ bad, bad ∈ take 5 [JObj ∅; JStr "oops"; JObj ∅] ∧ is_obj bad = false ∧
         format_search_results (JObj stray_item) = Raise (PyError op_get bad).
Proof.
  split; [reflexivity|]. split; [reflexivity|]. split; [reflexivity|].
  exact (malformed_entry_raises stray_item [JObj ∅; JStr "oops"; JObj ∅]
           eq_refl eq_refl eq_refl).
Defined.

(** X7: the sample result. *)
Lemma block_starts_with_label_witness :
  format_search_results (encode sample_result)
    = Return (header +:+ organic_section sample_result +:+ answer_section sample_result +:+
              knowledge_section sample_result) ∧
  (String.prefix "Error performing search: "
     (header +:+ organic_section sample_result +:+ answer_section sample_result +:+
      knowledge_section sample_result) = true ∨
   String.prefix header
     (header +:+ organic_section sample_result +:+ answer_section sample_result +:+
      knowledge_section sample_result) = true).
Proof.
  split; [reflexivity|].
  exact (block_starts_with_label (encode sample_result) _ eq_refl).
Defined.


(** X9: the search answers [null]. *)
Lemma unreadable_document_stops_turn_witness :
  search_query true (Some "migraine") = Some "migraine" ∧
  format_search_results (search_document world_null_document "migraine" sample_session)
    = Raise (PyError op_contains JNull) ∧
  get_gemini_response world_null_document sample_model "migraine" true (Some "migraine")
    sample_session
  = (Return ("An error occurred: " +:+ str_exn (PyError op_contains JNull)), sample_session,
     [HttpPost search_url (search_headers sample_session) (search_payload "migraine")]).
Proof.
  split; [reflexivity|]. split; [reflexivity|].
  exact (unreadable_document_stops_turn world_null_document sample_model "migraine" true
           (Some "migraine") sample_session "migraine" (PyError op_contains JNull)
           eq_refl eq_refl).
Defined.

(** X12: the search answers with the sample result. *)
Lemma search_result_reaches_llm_witness :
  search_query true (Some "migraine") = Some "migraine" ∧
  requests_post world_up search_url (search_headers sample_session)
    (search_payload "migraine") = Answer (encode sample_result) ∧
  error sample_result = None ∧
  trace_of (get_gemini_response world_up sample_model "migraine" true (Some "migraine")
              sample_session)
    = [ HttpPost search_url (search_headers sample_session) (search_payload "migraine");
        SendMessage sample_model (chat_history sample_session)
          (search_prompt medical_context "migraine"
             (header +:+ organic_section sample_result +:+ answer_section sample_result +:+
              knowledge_section sample_result)) ].
Proof.
  split; [reflexivity|]. split; [reflexivity|]. split; [reflexivity|].
  exact (search_result_reaches_llm world_up sample_model "migraine" true (Some "migraine")
           sample_session "migraine" sample_result eq_refl eq_refl eq_refl).
Defined.

(** X14: one more question in the session left by [sample_events]. *)
Lemma histories_only_grow_witness :
  clear_button (submit false "Is it hereditary?") = false ∧
  messages sample_final
    `prefix_of` messages (session_of (main world_up sample_secrets
                                        (submit false "Is it hereditary?")
                                        (Some sample_final))) ∧
  chat_history sample_final
    `prefix_of` chat_history (session_of (main world_up sample_secrets
                                            (submit false "Is it hereditary?")
                                            (Some sample_final))).
Proof.
  split; [reflexivity|].
  exact (histories_only_grow world_up sample_secrets (submit false "Is it hereditary?")
           sample_final eq_refl).
Defined.

(** X15: the toggle switched on in the session left by [sample_events]. *)
Lemma idle_run_witness :
  truthy_opt (chat_input only_toggle) = false ∧
  clear_button only_toggle = false ∧
  messages sample_final
    = greeting :: [ user_message "What causes a migraine?";
                    assistant_message "An error occurred: quota exceeded";
                    user_message "And how is it treated?";
                    assistant_message "Rest in a dark room." ] ∧
  main world_down sample_secrets only_toggle (Some sample_final)
    = (Return (), set_search_mode (search_toggle only_toggle) sample_final, []).
Proof.
  split; [reflexivity|]. split; [reflexivity|]. split; [reflexivity|].
  exact (idle_run world_down sample_secrets only_toggle sample_final _ _
           eq_refl eq_refl eq_refl).
Defined.

(** X16: the secrets are replaced between the two runs of [sample_events]. *)
Lemma keys_are_kept_witness :
  run_secrets [ (world_down, sample_secrets, submit false "What causes a migraine?");
                (world_up, later_secrets, submit false "And how is it treated?") ] None
    = Some sample_final ∧
  gemini_api_key sample_final = GEMINI_API_KEY sample_secrets ∧
  serper_api_key sample_final = SERPER_API_KEY sample_secrets.
Proof.
  split; [reflexivity|].
  exact (keys_are_kept world_down sample_secrets (submit false "What causes a migraine?")
           [(world_up, later_secrets, submit false "And how is it treated?")]
           sample_final eq_refl).
Defined.

(** X17: one more question in the session left by [sample_events]. *)
Lemma run_hands_over_context_witness :
  SendMessage sample_model (chat_history sample_final)
      (plain_prompt medical_context "Is it hereditary?")
    ∈ trace_of (main world_up sample_secrets (submit false "Is it hereditary?")
                  (Some sample_final)) ∧
  sample_model
    = generative_model (gemini_api_key (initialize_session_state sample_secrets
                                          (Some sample_final))) ∧
  chat_history sample_final
    = if clear_button (submit false "Is it hereditary?") then []
      else chat_history (initialize_session_state sample_secrets (Some sample_final)).
Proof.
  assert (Hin : SendMessage sample_model (chat_history sample_final)
                  (plain_prompt medical_context "Is it hereditary?")
                ∈ trace_of (main world_up sample_secrets (submit false "Is it hereditary?")
                              (Some sample_final))).
  { vm_compute. left. }
  split; [exact Hin|].
  exact (run_hands_over_context world_up sample_secrets (submit false "Is it hereditary?")
           (Some sample_final) _ _ _ Hin).
Defined.

(** X18: a question with search on, in a fresh session. *)
Lemma run_searches_only_on_demand_witness :
  HttpPost search_url (search_headers sample_session) (search_payload "migraine")
    ∈ trace_of (main world_up sample_secrets (submit true "migraine") None) ∧
  search_toggle (submit true "migraine") = true ∧
  ∃ p, chat_input (submit true "migraine") = Some p ∧ truthy p = true ∧
       search_url = search_url ∧
       search_headers sample_session !! "X-API-KEY"
         = Some (serper_api_key (initialize_session_state sample_secrets None)) ∧
       search_payload "migraine" = search_payload p.
Proof.
  assert (Hin : HttpPost search_url (search_headers sample_session) (search_payload "migraine")
                ∈ trace_of (main world_up sample_secrets (submit true "migraine") None)).
  { vm_compute. left. }
  split; [exact Hin|].
  exact (run_searches_only_on_demand world_up sample_secrets (submit true "migraine") None
           _ _ _ Hin).
Defined.

(** X19: the toggle switched on together with the question. *)
Lemma run_searches_when_enabled_witness :
  search_toggle (submit true "migraine") = true ∧
  chat_input (submit true "migraine") = Some "migraine" ∧
  truthy "migraine" = true ∧
  search_mode sample_final = false ∧
  ∃ h, trace_of (main world_up sample_secrets (submit true "migraine") (Some sample_final))
         !! 0 = Some (HttpPost search_url h (search_payload "migraine")) ∧
       h !! "X-API-KEY"
         = Some (serper_api_key (initialize_session_state sample_secrets
                                   (Some sample_final))).
Proof.
  split; [reflexivity|]. split; [reflexivity|]. split; [reflexivity|]. split; [reflexivity|].
  exact (run_searches_when_enabled world_up sample_secrets (submit true "migraine")
           (Some sample_final) "migraine" eq_refl eq_refl eq_refl).
Defined.

(** X20: a fresh session opened with the toggle on. *)
Lemma fresh_session_start_witness :
  truthy_opt (chat_input only_toggle) = false ∧
  main world_down sample_secrets only_toggle None
    = (Return (),
       {| messages := [greeting]; chat_history := [];
          search_mode := search_toggle only_toggle;
          gemini_api_key := GEMINI_API_KEY sample_secrets;
          serper_api_key := SERPER_API_KEY sample_secrets |},
       []).
Proof.
  split; [reflexivity|].
  exact (fresh_session_start world_down sample_secrets only_toggle eq_refl).
Defined.

(** X21: an entry whose title is [null]. *)
Lemma null_title_prints_None_witness :
  ({[ "title" := JNull ]} : gmap string json) !! "title" = Some JNull ∧
  format_organic 1 [JObj {[ "title" := JNull ]}] header
    = Return (header +:+ pretty 1 +:+ ". None" +:+ nl +:+
              "   URL: " +:+
              py_str (default (JStr "No link")
                        (({[ "title" := JNull ]} : gmap string json) !! "link")) +:+ nl +:+
              "   Description: " +:+
              py_str (default (JStr "No description")
                        (({[ "title" := JNull ]} : gmap string json) !! "snippet")) +:+
              nl +:+ nl).
Proof.
  split; [reflexivity|].
  exact (null_title_prints_None {[ "title" := JNull ]} 1 header eq_refl).
Defined.

End MoreExamples.
